(** * audiobox_aesthetics.infer : windowing, batching and weighted aggregation

    A shallow embedding of [src/audiobox_aesthetics/infer.py].

    Conventions of the embedding.
    - Python integers are [Z]; list positions and clip ids are [nat].
    - A waveform is the last axis of a mono tensor of shape [(1, L)]: a
      [list Q] of samples.
    - Floating-point numbers (samples, weights, scores) are idealised as
      exact rationals [Q], which fixes the formula that is computed but
      not its rounding.  The only IEEE behaviour kept there is the one of
      tensor division by zero, which yields an infinity or NaN instead of
      raising ([tensor_div]).  Where rounding decides a property, the
      aggregation is evaluated on IEEE binary32 values ([clip_score_f32]).
    - Python exceptions are values of [py_error], threaded by the [result]
      monad. *)

From Stdlib Require Import String.
From Stdlib Require Import ZArith QArith Qminmax List Bool Lia Lra.
From Stdlib Require Import Psatz Sorted SpecFloat.
Import ListNotations.

Local Open Scope Z_scope.

(** ** Exceptions and the error monad *)

Inductive py_error : Type :=
| ValueError
| ZeroDivisionError
| RuntimeError
| IndexError
| KeyError
| AssertionError
| TypeError
| AttributeError.

Inductive result (A : Type) : Type :=
| Ok (a : A)
| Raise (e : py_error).

Arguments Ok {A} a.
Arguments Raise {A} e.

Definition bind {A B : Type} (r : result A) (k : A -> result B) : result B :=
  match r with
  | Ok a => k a
  | Raise e => Raise e
  end.

Notation "x <- c ;; k" := (bind c (fun x => k))
  (at level 61, c at next level, right associativity).

(** A [for] loop whose body may raise: the state is threaded from left to
    right and the first exception aborts the loop. *)
Fixpoint for_each {S X : Type} (body : S -> X -> result S) (xs : list X) (s : S)
  : result S :=
  match xs with
  | [] => Ok s
  | x :: xs' => s' <- body s x ;; for_each body xs' s'
  end.

(** ** Python built-ins used by the module *)

(** [len(range(lo, hi, step))], as CPython computes it. *)
Definition range_len (lo hi step : Z) : Z :=
  if 0 <? step then
    if lo <? hi then (hi - lo - 1) / step + 1 else 0
  else
    if hi <? lo then (lo - hi - 1) / (- step) + 1 else 0.

(** [range(lo, hi, step)]; a zero step raises [ValueError]. *)
Definition py_range (lo hi step : Z) : result (list Z) :=
  if step =? 0 then Raise ValueError
  else Ok (map (fun k => lo + Z.of_nat k * step)
               (seq 0 (Z.to_nat (range_len lo hi step)))).

(** Normalisation of one bound of a slice over a sequence of length [n]:
    negative bounds count from the end, and everything is clamped to
    [0 .. n]. *)
Definition clamp_index (n i : Z) : Z :=
  if i <? 0 then Z.max (i + n) 0 else Z.min i n.

(** [l[start:stop]] along the last axis. *)
Definition py_slice {A : Type} (l : list A) (start stop : Z) : list A :=
  let n := Z.of_nat (length l) in
  let a := clamp_index n start in
  let b := clamp_index n stop in
  firstn (Z.to_nat (b - a)) (skipn (Z.to_nat a) l).

(** [l[start:stop] = v] on a tensor axis (broadcast of a scalar). *)
Definition slice_fill {A : Type} (l : list A) (start stop : Z) (v : A) : list A :=
  let n := Z.of_nat (length l) in
  let a := clamp_index n start in
  let b := clamp_index n stop in
  if a <? b then
    firstn (Z.to_nat a) l ++ repeat v (Z.to_nat (b - a)) ++ skipn (Z.to_nat b) l
  else l.

(** [a / b] on Python integers: true division, [ZeroDivisionError] on a
    zero divisor. *)
Definition py_true_div (a b : Z) : result Q :=
  if b =? 0 then Raise ZeroDivisionError
  else Ok (inject_Z a / inject_Z b)%Q.

(** [F.pad(x, (0, n))]: [n] zeros appended on the right of the last axis. *)
Definition F_pad (x : list Q) (n : Z) : list Q :=
  x ++ repeat 0%Q (Z.to_nat n).

(** [torch.zeros_like(x, dtype=torch.bool)]. *)
Definition zeros_like (x : list Q) : list bool :=
  repeat false (length x).

(** ** [make_inference_batch] *)

(** The four parallel lists the function builds and returns. *)
Record batch_lists : Type := mk_batch {
  wavs : list (list Q);
  masks : list (list bool);
  weights : list Q;
  bids : list nat
}.

Definition empty_batch : batch_lists := mk_batch [] [] [] [].

(** Body of the inner loop (lines 67-76): one window starting at [ii]. *)
Definition window_body (winlen : Z) (pad_zero : bool) (bid : nat) (wav : list Q)
  (acc : batch_lists) (ii : Z) : result batch_lists :=
  let wav_ii := py_slice wav ii (ii + winlen) in
  let wav_ii_len := Z.of_nat (length wav_ii) in
  let wav_ii :=
    if (wav_ii_len <? winlen) && pad_zero
    then F_pad wav_ii (winlen - wav_ii_len)
    else wav_ii in
  let mask_ii := zeros_like wav_ii in
  let mask_ii := slice_fill mask_ii 0 wav_ii_len true in
  w <- py_true_div wav_ii_len winlen ;;
  Ok (mk_batch (wavs acc ++ [wav_ii]) (masks acc ++ [mask_ii])
               (weights acc ++ [w]) (bids acc ++ [bid])).

(** Body of the outer loop (lines 65-76): all windows of one clip. *)
Definition clip_body (offset winlen : Z) (pad_zero : bool)
  (acc : batch_lists) (item : nat * list Q) : result batch_lists :=
  let '(bid, wav) := item in
  starts <- py_range 0 (Z.of_nat (length wav)) offset ;;
  for_each (window_body winlen pad_zero bid wav) starts acc.

(** [enumerate(xs)]. *)
Definition enumerate {A : Type} (xs : list A) : list (nat * A) :=
  combine (seq 0 (length xs)) xs.

Definition make_inference_batch (input_wavs : list (list Q))
  (hop_size window_size sample_rate : Z) (pad_zero : bool) : result batch_lists :=
  let offset := hop_size * sample_rate in
  let winlen := window_size * sample_rate in
  for_each (clip_body offset winlen pad_zero) (enumerate input_wavs) empty_batch.

(** ** Tensors and dictionaries used by the predictor *)

(** A scalar read out of a tensor with [.item()]: a finite value, an
    infinity or NaN. *)
Inductive tensor_item : Type :=
| Finite (q : Q)
| Infinity (negative : bool)
| NaN.

(** Division of two finite tensor scalars.  Tensor division never raises:
    a zero divisor gives an infinity, or NaN for [0 / 0]. *)
Definition tensor_div (num den : Q) : tensor_item :=
  if Qeq_bool den 0 then
    if Qeq_bool num 0 then NaN
    else Infinity (negb (Qle_bool 0 num))
  else Finite (num / den).

(** [t.sum()] of a one-dimensional tensor. *)
Definition tensor_sum (t : list Q) : Q := fold_right Qplus 0%Q t.

(** [a * b] on one-dimensional tensors of the same shape. *)
Definition tensor_mul (a b : list Q) : list Q :=
  map (fun p => (fst p * snd p)%Q) (combine a b).

(** [ids == bii]: the boolean mask of the positions holding [bii]. *)
Definition tensor_eq_scalar (ids : list nat) (bii : nat) : list bool :=
  map (fun b => Nat.eqb b bii) ids.

(** [t[mask]] with a boolean mask: the mask must have the shape of [t],
    otherwise indexing raises [IndexError]. *)
Definition mask_index {A : Type} (t : list A) (mask : list bool) : result (list A) :=
  if Nat.eqb (length t) (length mask)
  then Ok (map fst (filter snd (combine t mask)))
  else Raise IndexError.

(** [torch.stack(ts)]: needs a non-empty list of tensors of one shape. *)
Definition torch_stack {A : Type} (ts : list (list A)) : result (list (list A)) :=
  match ts with
  | [] => Raise RuntimeError
  | t :: rest =>
      if forallb (fun u => Nat.eqb (length u) (length t)) rest
      then Ok ts
      else Raise RuntimeError
  end.

Definition py_assert (b : bool) : result unit :=
  if b then Ok tt else Raise AssertionError.

(** A [dict] with string keys, in insertion order. *)
Definition dict (V : Type) : Type := list (string * V).

Fixpoint dict_get {V : Type} (d : dict V) (k : string) : result V :=
  match d with
  | [] => Raise KeyError
  | (k', v) :: d' => if String.eqb k' k then Ok v else dict_get d' k
  end.

Fixpoint dict_set {V : Type} (d : dict V) (k : string) (v : V) : dict V :=
  match d with
  | [] => [(k, v)]
  | (k', v') :: d' =>
      if String.eqb k' k then (k', v) :: d' else (k', v') :: dict_set d' k v
  end.

Definition dict_keys {V : Type} (d : dict V) : list string := map fst d.
Definition dict_values {V : Type} (d : dict V) : list V := map snd d.

(** [dict(pairs)]. *)
Definition dict_of_pairs {V : Type} (pairs : list (string * V)) : dict V :=
  fold_left (fun d kv => dict_set d (fst kv) (snd kv)) pairs [].

(** The first element of every row, if no row is exhausted. *)
Fixpoint all_heads {A : Type} (rows : list (list A)) : option (list A) :=
  match rows with
  | [] => Some []
  | [] :: _ => None
  | (x :: _) :: rows' => option_map (cons x) (all_heads rows')
  end.

Fixpoint zip_star_upto {A : Type} (fuel : nat) (rows : list (list A))
  : list (list A) :=
  match fuel with
  | O => []
  | S fuel' =>
      match all_heads rows with
      | Some hs => hs :: zip_star_upto fuel' (map (@tl A) rows)
      | None => []
      end
  end.

(** [zip] of the unpacked [rows]: the columns of [rows], as many as the shortest row has
    elements; without any row there is nothing to yield.  The length of the
    first row bounds the number of columns. *)
Definition zip_star {A : Type} (rows : list (list A)) : list (list A) :=
  match rows with
  | [] => []
  | r :: _ => zip_star_upto (length r) rows
  end.

(** [zip(ks, vs)]. *)
Definition zip {A B : Type} (ks : list A) (vs : list B) : list (A * B) :=
  combine ks vs.

(** ** The predictor *)

Definition AXES_NAME : list string := ["CE"; "CU"; "PC"; "PQ"]%string.

Inductive torch_dtype : Type := float16 | bfloat16 | float32.

Definition torch_dtype_eqb (a b : torch_dtype) : bool :=
  match a, b with
  | float16, float16 | bfloat16, bfloat16 | float32, float32 => true
  | _, _ => false
  end.

(** The precision table of lines 94-97 and 139-142. *)
Definition precision_table : dict torch_dtype :=
  [("16", float16); ("bf16", bfloat16)]%string.

(** [d.get(k, default)] and [d.get(k)]. *)
Definition dict_get_default {V : Type} (d : dict V) (k : string) (default : V) : V :=
  match dict_get d k with Ok v => v | Raise _ => default end.

Definition dict_get_none {V : Type} (d : dict V) (k : string) : option V :=
  match dict_get d k with Ok v => Some v | Raise _ => None end.

(** Modelled from the spec: [Normalize] of [model/aes_wavlm.py], which is
    not part of the sources at hand.  The spec gives its inverse as the
    affine map [score = raw * std + mean]. *)
Record Normalize : Type := mk_Normalize { mean : Q; std : Q }.

Definition inverse (t : Normalize) (raw : list Q) : list Q :=
  map (fun x => (x * std t + mean t)%Q) raw.

(** The scoring network, opaque: stacked windows and masks to one raw
    score per window for each axis name. *)
Definition scorer : Type := list (list Q) -> list (list bool) -> string -> list Q.

(** What [torch.load] yields, as far as the predictor reads it: the network
    built from [model_cfg] and [state_dict], and the [target_transform]
    table of per-axis [(mean, std)]. *)
Record checkpoint : Type := mk_checkpoint {
  ckpt_model : scorer;
  ckpt_target_transform : dict (Q * Q)
}.

Inductive log_level : Type := INFO | WARNING.
Definition log_record : Type := (log_level * string)%type.

(** The attributes [__init__] sets before it calls [setup_model]. *)
Record predictor_attrs : Type := mk_attrs {
  a_checkpoint_pth : string;
  a_precision : string;
  a_batch_size : Z;
  a_sample_rate : Z;
  a_device : string;
  a_dtype : option torch_dtype
}.

(** The predictor once [setup_model] has run. *)
Record predictor : Type := mk_predictor {
  checkpoint_pth : string;
  precision : string;
  batch_size : Z;
  sample_rate : Z;
  device : string;
  dtype : option torch_dtype;
  model : scorer;
  target_transform : dict Normalize
}.

(** The dict comprehension of lines 144-150. *)
Definition build_target_transform (ckpt : checkpoint) : result (dict Normalize) :=
  for_each (fun d axis =>
              ms <- dict_get (ckpt_target_transform ckpt) axis ;;
              Ok (dict_set d axis (mk_Normalize (fst ms) (snd ms))))
           AXES_NAME [].

(** [setup_model] (lines 105-150), given the checkpoint that [torch.load]
    returns.  It gives back what it logs and the predictor, or the
    exception raised. *)
Definition setup_model (ckpt : checkpoint) (self : predictor_attrs)
  : list log_record * result predictor :=
  ([(INFO, "Setting up Aesthetic model on " ++ a_device self)%string],
   tr <- build_target_transform ckpt ;;
   Ok (mk_predictor (a_checkpoint_pth self) (a_precision self)
         (a_batch_size self) (a_sample_rate self) (a_device self)
         (dict_get_none precision_table (a_precision self))
         (ckpt_model ckpt) tr)).

(** [AesWavlmPredictorMultiOutput.__init__] (lines 88-102). *)
Definition init (ckpt : checkpoint) (checkpoint_pth precision : string)
  (batch_size : Z) (device : string) : list log_record * result predictor :=
  let dtype0 := dict_get_default precision_table precision float32 in
  let warn :=
    if torch_dtype_eqb dtype0 float32
    then [(WARNING,
           "Precision " ++ precision ++ " is not supported, using float32 instead.")%string]
    else [] in
  let self := mk_attrs checkpoint_pth precision batch_size 16000 device (Some dtype0) in
  let '(logs, r) := setup_model ckpt self in
  (warn ++ logs, r).

(** ** Aggregation (lines 204-211) *)

(** The score of clip [bii] on one axis: the windows of the clip are picked
    with the mask [bids == bii], and the weighted sum of their predictions
    is divided by the sum of their weights. *)
Definition clip_score (preds weights : list Q) (bids : list nat) (bii : nat)
  : result tensor_item :=
  weights_bii <- mask_index weights (tensor_eq_scalar bids bii) ;;
  preds_bii <- mask_index preds (tensor_eq_scalar bids bii) ;;
  Ok (tensor_div (tensor_sum (tensor_mul preds_bii weights_bii))
                 (tensor_sum weights_bii)).

(** The loop over [range(bsz)] filling [weighted_preds]. *)
Definition weighted_preds (preds weights : list Q) (bids : list nat) (bsz : nat)
  : result (list tensor_item) :=
  for_each (fun acc bii =>
              v <- clip_score preds weights bids bii ;;
              Ok (acc ++ [v]))
           (seq 0 bsz) [].

(** ** [forward_versa] and the driver loop *)

Section Forward.

(** Audio decoding and resampling are external: [resample_mono wav sr
    target] stands for the mono waveform librosa returns.  [raw_audio]
    is a one-dimensional array of samples, which [unsqueeze(0)] turns into
    the [(1, L)] tensor the segmenter is written for. *)
Variable raw_audio : Type.
Variable resample_mono : raw_audio -> Z -> Z -> list Q.

(** Python's formatting of a finite float, external as well. *)
Variable float_repr : Q -> string.

Definition audio_resample_mono_versa (self : predictor)
  (data_list : list (raw_audio * Z)) : list (list Q) :=
  map (fun item => resample_mono (fst item) (snd item) (sample_rate self))
      data_list.

(** One round of the loop over [AXES_NAME] (lines 202-212). *)
Definition axis_body (self : predictor) (preds_all : string -> list Q)
  (b : batch_lists) (bsz : nat)
  (all_result : dict (list tensor_item)) (axis : string)
  : result (dict (list tensor_item)) :=
  t <- dict_get (target_transform self) axis ;;
  let preds := inverse t (preds_all axis) in
  wp <- weighted_preds preds (weights b) (bids b) bsz ;;
  Ok (dict_set all_result axis wp).

Definition dquote : string :=
  String (Ascii.Ascii false true false false false true false false) EmptyString.

Definition json_float (v : tensor_item) : string :=
  match v with
  | Finite q => float_repr q
  | Infinity false => "Infinity"
  | Infinity true => "-Infinity"
  | NaN => "NaN"
  end.

(** [json.dumps] of a dict from strings to floats. *)
Definition json_dumps (d : dict tensor_item) : string :=
  ("{" ++ String.concat ", "
            (map (fun kv => dquote ++ fst kv ++ dquote ++ ": " ++ json_float (snd kv)) d)
       ++ "}")%string.

Definition forward_versa (self : predictor) (batch : list (raw_audio * Z))
  : result (list string) :=
  let bsz := length batch in
  let wavs0 := audio_resample_mono_versa self batch in
  b <- make_inference_batch wavs0 10 10 (sample_rate self) true ;;
  wavs_t <- torch_stack (wavs b) ;;
  masks_t <- torch_stack (masks b) ;;
  _ <- py_assert (Nat.eqb (length wavs_t) (length masks_t)
                  && Nat.eqb (length masks_t) (length (weights b))
                  && Nat.eqb (length (weights b)) (length (bids b))) ;;
  let preds_all := model self wavs_t masks_t in
  all_result <- for_each (axis_body self preds_all b bsz) AXES_NAME [] ;;
  let all_rows :=
    map (fun vv => dict_of_pairs (zip (dict_keys all_result) vv))
        (zip_star (dict_values all_result)) in
  Ok (map json_dumps all_rows).

End Forward.

Section MainPredict.

(** The loop of [main_predict], for the bound method [forward] that it
    calls on every chunk; [main_predict] below supplies it. *)
Variable item : Type.
Variable forward : list item -> result (list string).

(** Body of the loop of lines 247-249: one chunk. *)
Definition chunk_body (metadata : list item) (batch_size : Z)
  (outputs : list string) (ii : Z) : result (list string) :=
  output <- forward (py_slice metadata ii (ii + batch_size)) ;;
  Ok (outputs ++ output).

(** Lines 246-254 of [main_predict]. *)
Definition main_predict_loop (metadata : list item) (batch_size : Z)
  : result (list string) :=
  starts <- py_range 0 (Z.of_nat (length metadata)) batch_size ;;
  outputs <- for_each (chunk_body metadata batch_size) starts [] ;;
  _ <- py_assert (Nat.eqb (length outputs) (length metadata)) ;;
  Ok outputs.

End MainPredict.

(** ** Derived notions used to state the properties *)

(** One window, as the four parallel lists hold it. *)
Record window : Type := mk_window {
  w_samples : list Q;
  w_mask : list bool;
  w_weight : Q;
  w_bid : nat
}.

(** The windows of a batch, read across the four lists. *)
Fixpoint zip_windows (ws : list (list Q)) (ms : list (list bool))
  (wts : list Q) (bs : list nat) : list window :=
  match ws, ms, wts, bs with
  | w :: ws', m :: ms', wt :: wts', b :: bs' =>
      mk_window w m wt b :: zip_windows ws' ms' wts' bs'
  | _, _, _, _ => []
  end.

Definition batch_windows (b : batch_lists) : list window :=
  zip_windows (wavs b) (masks b) (weights b) (bids b).

Definition batch_of (ws : list window) : batch_lists :=
  mk_batch (map w_samples ws) (map w_mask ws) (map w_weight ws) (map w_bid ws).

Definition push_window (acc : batch_lists) (w : window) : batch_lists :=
  mk_batch (wavs acc ++ [w_samples w]) (masks acc ++ [w_mask w])
           (weights acc ++ [w_weight w]) (bids acc ++ [w_bid w]).

(** Number of real samples of a window: the [True] entries of its mask. *)
Definition real_samples (w : window) : Z :=
  Z.of_nat (length (filter (fun x => x) (w_mask w))).

(** The start offsets of the windows of a waveform of [L] samples. *)
Definition range_list (lo hi step : Z) : list Z :=
  map (fun k => lo + Z.of_nat k * step)
      (seq 0 (Z.to_nat (range_len lo hi step))).

(** The window starting at [ii], in closed form (for [0 <= ii < len wav]
    and a positive [winlen]). *)
Definition make_window (winlen : Z) (pad_zero : bool) (bid : nat) (wav : list Q)
  (ii : Z) : window :=
  let real := firstn (Z.to_nat winlen) (skipn (Z.to_nat ii) wav) in
  let n := Z.min winlen (Z.of_nat (length wav) - ii) in
  if pad_zero then
    mk_window (real ++ repeat 0%Q (Z.to_nat (winlen - n)))
              (repeat true (Z.to_nat n) ++ repeat false (Z.to_nat (winlen - n)))
              (inject_Z n / inject_Z winlen)%Q bid
  else
    mk_window real (repeat true (Z.to_nat n)) (inject_Z n / inject_Z winlen)%Q bid.

(** The window the loop body appends for the start [ii], whenever the
    division of line 75 does not raise. *)
Definition window_at (winlen : Z) (pad_zero : bool) (bid : nat) (wav : list Q)
  (ii : Z) : window :=
  let wav_ii := py_slice wav ii (ii + winlen) in
  let wav_ii_len := Z.of_nat (length wav_ii) in
  let wav_ii :=
    if (wav_ii_len <? winlen) && pad_zero
    then F_pad wav_ii (winlen - wav_ii_len)
    else wav_ii in
  mk_window wav_ii (slice_fill (zeros_like wav_ii) 0 wav_ii_len true)
            (inject_Z wav_ii_len / inject_Z winlen)%Q bid.

Definition clip_windows (offset winlen : Z) (pad_zero : bool)
  (item : nat * list Q) : list window :=
  map (window_at winlen pad_zero (fst item) (snd item))
      (range_list 0 (Z.of_nat (length (snd item))) offset).

Definition all_windows (offset winlen : Z) (pad_zero : bool)
  (input_wavs : list (list Q)) : list window :=
  flat_map (clip_windows offset winlen pad_zero) (enumerate input_wavs).

(** [ceil(a / b)] on integers. *)
Definition ceil_div (a b : Z) : Z := - ((- a) / b).

(** The entries of [xs] that belong to clip [bii]. *)
Definition select_clip {A : Type} (ids : list nat) (bii : nat) (xs : list A) : list A :=
  map snd (filter (fun p => Nat.eqb (fst p) bii) (combine ids xs)).

(** The weighted mean of the spec: [sum (score * weight) / sum weight]. *)
Definition weighted_mean (scores ws : list Q) : Q :=
  (tensor_sum (tensor_mul scores ws) / tensor_sum ws)%Q.

(** Smallest and largest element of a list of scores ([d] if empty). *)
Definition Qlist_min (d : Q) (l : list Q) : Q :=
  match l with
  | [] => d
  | x :: l' => fold_left Qmin l' x
  end.

Definition Qlist_max (d : Q) (l : list Q) : Q :=
  match l with
  | [] => d
  | x :: l' => fold_left Qmax l' x
  end.

(** Index [j] of the waveform lies in one of the slices [[ii, ii + winlen)]. *)
Definition sample_covered (starts : list Z) (winlen j : Z) : bool :=
  existsb (fun ii => (ii <=? j) && (j <? ii + winlen)) starts.

(** Number of windows of the batch that belong to clip [bii]. *)
Definition clip_window_count (b : batch_lists) (bii : nat) : nat :=
  length (filter (fun w => Nat.eqb (w_bid w) bii) (batch_windows b)).

(** A small predictor used to run the code on concrete batches: its
    network scores every window 1 on every axis, and audio is taken as
    already mono at the target rate. *)
Definition demo_ckpt : checkpoint :=
  mk_checkpoint (fun ws _ _ => map (fun _ => 1%Q) ws)
    [("CE", (1, 2)); ("CU", (0, 1)); ("PC", (3, 1)); ("PQ", (5, 3))]%string%Q.

Definition demo_predictor : predictor :=
  mk_predictor "ckpt.pt" "bf16" 1 16000 "cpu" (Some bfloat16) (ckpt_model demo_ckpt)
    [("CE", mk_Normalize 1 2); ("CU", mk_Normalize 0 1);
     ("PC", mk_Normalize 3 1); ("PQ", mk_Normalize 5 3)]%string%Q.

Definition demo_resample (wav : list Q) (orig_sr target_sr : Z) : list Q := wav.

Definition demo_float_repr (q : Q) : string := "<float>".

(** The score line 209 computes for [axis] and clip [bii] on the batch
    [b]: de-normalized predictions of the network, aggregated. *)
Definition axis_clip_score (self : predictor) (b : batch_lists) (axis : string)
  (bii : nat) : result tensor_item :=
  t <- dict_get (target_transform self) axis ;;
  clip_score (inverse t (model self (wavs b) (masks b) axis))
             (weights b) (bids b) bii.

(** The value [clip_score] returns when the shapes agree. *)
Definition clip_value (preds ws : list Q) (ids : list nat) (bii : nat) : tensor_item :=
  tensor_div
    (tensor_sum (tensor_mul (select_clip ids bii preds) (select_clip ids bii ws)))
    (tensor_sum (select_clip ids bii ws)).

(** The record of clip [bii], before [json.dumps]. *)
Definition clip_record (self : predictor) (b : batch_lists) (bii : nat)
  : dict tensor_item :=
  map (fun axis =>
         (axis,
          match dict_get (target_transform self) axis with
          | Ok t => clip_value (inverse t (model self (wavs b) (masks b) axis))
                      (weights b) (bids b) bii
          | Raise _ => NaN
          end))
      AXES_NAME.

(** ** [load_dataset] *)

Section LoadDataset.

(** The file is given by its lines; [json.loads] is external and raises
    [ValueError] (as [JSONDecodeError]) on a malformed line.  [start] and
    [end] are integers, as [main_predict] passes them. *)
Variable json_value : Type.
Variable json_loads : string -> result json_value.

(** Body of the loop of lines 225-228. *)
Definition load_dataset_body (start end_ : Z) (metadata : list json_value)
  (item : nat * string) : result (list json_value) :=
  let '(ii, fi) := item in
  if (start <=? Z.of_nat ii) && (Z.of_nat ii <? end_) then
    fi <- json_loads fi ;;
    Ok (metadata ++ [fi])
  else Ok metadata.

Definition load_dataset (lines : list string) (start end_ : Z)
  : result (list json_value) :=
  for_each (load_dataset_body start end_) (enumerate lines) [].

End LoadDataset.

(** ** [read_wav] *)

(** The metadata of one clip: a dict with a [path] and, optionally, the
    integer [start_time] and [end_time]; an absent key is [None]. *)
Record wav_meta : Type := mk_meta {
  meta_path : option string;
  meta_start_time : option Z;
  meta_end_time : option Z
}.

(** [meta[key]]. *)
Definition meta_get {A : Type} (field : option A) : result A :=
  match field with
  | Some v => Ok v
  | None => Raise KeyError
  end.

(** [wav.mean(0, keepdim=True)] on a tensor of shape [(C, T)], given as
    its [C] channels. *)
Definition tensor_mean0 (wav : list (list Q)) : list (list Q) :=
  [map (fun t =>
          (tensor_sum (map (fun ch => nth t ch 0%Q) wav)
           / inject_Z (Z.of_nat (length wav)))%Q)
       (seq 0 (length (hd [] wav)))].

Section ReadWav.

(** [torchaudio.info(path).sample_rate] and [torchaudio.load(path)], the
    latter optionally with [(frame_offset, num_frames)]; both external. *)
Variable torchaudio_info_sample_rate : string -> Z.
Variable torchaudio_load : string -> option (Z * Z) -> list (list Q) * Z.

Definition read_wav (meta : wav_meta) : result (list (list Q) * Z) :=
  path <- meta_get (meta_path meta) ;;
  loaded <-
    match meta_start_time meta with
    | Some start =>
        end_ <- meta_get (meta_end_time meta) ;;
        let sr := torchaudio_info_sample_rate path in
        Ok (fst (torchaudio_load path (Some (start * sr, (end_ - start) * sr))), sr)
    | None => Ok (torchaudio_load path None)
    end ;;
  let wav := fst loaded in
  let sr := snd loaded in
  let wav := if (1 <? length wav)%nat then tensor_mean0 wav else wav in
  Ok (wav, sr).

End ReadWav.

(** ** The keys of the state dict (lines 115-117) *)

(** [re.sub("^model.", "", k)]: the pattern matches at the start of the
    key only, and its dot stands for any character but a newline. *)
Definition re_sub_model_prefix (k : string) : string :=
  match k with
  | String c1 (String c2 (String c3 (String c4 (String c5 (String c6 rest))))) =>
      if String.eqb (String c1 (String c2 (String c3 (String c4 (String c5 EmptyString)))))
                    "model"
         && negb (Ascii.eqb c6 (Ascii.ascii_of_nat 10))
      then rest else k
  | _ => k
  end.

(** The dict comprehension over [ckpt["state_dict"].items()]. *)
Definition rewrite_state_dict {V : Type} (items : dict V) : dict V :=
  dict_of_pairs (map (fun kv => (re_sub_model_prefix (fst kv), snd kv)) items).

(** A window with its clip id moved by [k]. *)
Definition shift_bid (k : nat) (w : window) : window :=
  mk_window (w_samples w) (w_mask w) (w_weight w) (k + w_bid w).

(** The four lists of a batch have one length. *)
Definition parallel (b : batch_lists) : Prop :=
  length (wavs b) = length (bids b) /\
  length (masks b) = length (bids b) /\
  length (weights b) = length (bids b).

(** ** Float32 evaluation of the aggregation *)








(** ** [initialize_model] and [main_predict] *)

(** A call of the class with keyword arguments: the values given for the
    parameters of [__init__] (line 88), and the names of the keywords that
    are none of them. *)
Record init_call : Type := mk_init_call {
  kw_checkpoint_pth : option string;
  kw_precision : option string;
  kw_batch_size : option Z;
  kw_device : option string;
  kw_unexpected : list string
}.

Definition with_default {A : Type} (given : option A) (default : A) : A :=
  match given with Some v => v | None => default end.

(** Binding of the arguments, then [__init__]: a keyword that is no
    parameter, or a missing [checkpoint_pth], raises [TypeError] before
    the body runs; the other parameters have the defaults of line 88.
    [loaded] is what the checkpoint path loads. *)
Definition construct (loaded : checkpoint) (call : init_call)
  : list log_record * result predictor :=
  match kw_unexpected call, kw_checkpoint_pth call with
  | [], Some pth =>
      init loaded pth (with_default (kw_precision call) "bf16"%string)
           (with_default (kw_batch_size call) 1)
           (with_default (kw_device call) "cpu"%string)
  | _, _ => ([], Raise TypeError)
  end.

(** [initialize_model] (lines 232-234): the call passes [checkpoint_pth]
    and [data_col]. *)
Definition initialize_model (loaded : checkpoint) (ckpt : string)
  : list log_record * result predictor :=
  construct loaded
    (mk_init_call (Some ckpt) None None None ["data_col"%string]).

(** [predictor.forward]: the class defines [forward_versa] and no
    [forward], so the attribute lookup raises. *)
Definition predictor_forward (A : Type) (self : predictor)
  : result (list A -> result (list string)) :=
  Raise AttributeError.

Section MainPredictWhole.

Variable json_value : Type.
Variable json_loads : string -> result json_value.

(** [main_predict] (lines 237-254).  [input_file] is either a path, given
    by the lines of its file, or the metadata itself. *)
Definition main_predict (loaded : checkpoint)
  (input_file : list string + list json_value) (ckpt : string) (batch_size : Z)
  : result (list string) :=
  predictor <- snd (initialize_model loaded ckpt) ;;
  metadata <- match input_file with
              | inl lines => load_dataset json_value json_loads lines 0 (2 ^ 64)
              | inr metadata => Ok metadata
              end ;;
  main_predict_loop json_value
    (fun chunk => forward <- predictor_forward json_value predictor ;; forward chunk)
    metadata batch_size.

End MainPredictWhole.

(** * Properties *)

(** ** Loops *)

Lemma for_each_app {S X : Type} (body : S -> X -> result S) (xs ys : list X) (s : S) :
  for_each body (xs ++ ys) s = (s' <- for_each body xs s ;; for_each body ys s').
Proof.
  revert s; induction xs as [|x xs IH]; intros s; simpl; [reflexivity|].
  destruct (body s x) as [s'|e]; simpl; [apply IH | reflexivity].
Qed.

Lemma for_each_pure {S X : Type} (body : S -> X -> result S) (g : S -> X -> S)
  (xs : list X) (s : S) :
  (forall s x, In x xs -> body s x = Ok (g s x)) ->
  for_each body xs s = Ok (fold_left g xs s).
Proof.
  revert s; induction xs as [|x xs IH]; intros s H; simpl; [reflexivity|].
  rewrite H by (left; reflexivity); simpl.
  apply IH; intros; apply H; right; assumption.
Qed.

Lemma push_window_fold (ws : list window) (acc : batch_lists) :
  fold_left push_window ws acc =
  mk_batch (wavs acc ++ map w_samples ws) (masks acc ++ map w_mask ws)
           (weights acc ++ map w_weight ws) (bids acc ++ map w_bid ws).
Proof.
  revert acc; induction ws as [|w ws IH]; intros acc; simpl.
  - rewrite !app_nil_r; destruct acc; reflexivity.
  - rewrite IH; simpl; rewrite <- !app_assoc; reflexivity.
Qed.

Lemma batch_windows_of (ws : list window) : batch_windows (batch_of ws) = ws.
Proof.
  unfold batch_windows, batch_of; simpl.
  induction ws as [|[s m w b] ws IH]; simpl; [reflexivity | now rewrite IH].
Qed.

(** ** Ranges *)

Lemma py_range_list (lo hi step : Z) :
  step <> 0 -> py_range lo hi step = Ok (range_list lo hi step).
Proof.
  intros H; unfold py_range.
  destruct (Z.eqb_spec step 0); [contradiction | reflexivity].
Qed.

Lemma range_len_pos (L step : Z) :
  0 < L -> 0 < step -> range_len 0 L step = (L - 1) / step + 1.
Proof.
  intros HL Hs; unfold range_len.
  destruct (Z.ltb_spec 0 step); [|lia].
  destruct (Z.ltb_spec 0 L); [|lia].
  now rewrite Z.sub_0_r.
Qed.

Lemma range_len_nonpos_step (L step : Z) :
  0 <= L -> step <= 0 -> range_len 0 L step = 0.
Proof.
  intros HL Hs; unfold range_len.
  destruct (Z.ltb_spec 0 step); [lia|].
  destruct (Z.ltb_spec L 0); [lia | reflexivity].
Qed.

Lemma range_len_empty (step : Z) : range_len 0 0 step = 0.
Proof.
  unfold range_len; simpl. destruct (0 <? step); reflexivity.
Qed.

Lemma ceil_div_spec (a b : Z) :
  0 < b -> b * (ceil_div a b - 1) < a <= b * ceil_div a b.
Proof.
  intros Hb; unfold ceil_div.
  pose proof (Z.div_mod (- a) b ltac:(lia)) as Hd.
  pose proof (Z.mod_pos_bound (- a) b Hb) as Hm.
  nia.
Qed.

Lemma range_len_ceil (L step : Z) :
  0 < L -> 0 < step -> range_len 0 L step = ceil_div L step.
Proof.
  intros HL Hs; rewrite range_len_pos by assumption.
  pose proof (ceil_div_spec L step Hs) as Hc.
  pose proof (Z.div_mod (L - 1) step ltac:(lia)) as Hd.
  pose proof (Z.mod_pos_bound (L - 1) step Hs) as Hm.
  nia.
Qed.

(** The starts of a range with a positive step are the multiples of the
    step below the bound. *)
Lemma range_list_In (L step ii : Z) :
  In ii (range_list 0 L step) ->
  0 <= L ->
  exists k : nat, ii = Z.of_nat k * step /\ 0 <= ii < L /\ 0 < step.
Proof.
  unfold range_list; intros Hin HL.
  apply in_map_iff in Hin as (k & Hk & Hin).
  apply in_seq in Hin.
  destruct (Z_lt_le_dec 0 step) as [Hs|Hs].
  - destruct (Z_lt_le_dec 0 L) as [HL'|HL'].
    + rewrite range_len_pos in Hin by assumption.
      exists k; repeat split; try lia.
      pose proof (Z.div_mod (L - 1) step ltac:(lia)) as Hd.
      pose proof (Z.mod_pos_bound (L - 1) step Hs) as Hm.
      assert (Z.of_nat k <= (L - 1) / step) by lia.
      nia.
    + assert (L = 0) by lia; subst L.
      rewrite range_len_empty in Hin; simpl in Hin; lia.
  - rewrite range_len_nonpos_step in Hin by lia; simpl in Hin; lia.
Qed.

Lemma range_list_nth (L step : Z) (k : nat) :
  0 < step -> Z.of_nat k * step < L ->
  nth_error (range_list 0 L step) k = Some (Z.of_nat k * step).
Proof.
  intros Hs Hk; unfold range_list.
  assert (HL : 0 < L) by nia.
  rewrite range_len_pos by assumption.
  assert (Hlt : (k < Z.to_nat ((L - 1) / step + 1))%nat).
  { pose proof (Z.div_mod (L - 1) step ltac:(lia)) as Hd.
    pose proof (Z.mod_pos_bound (L - 1) step Hs) as Hm.
    assert (Z.of_nat k <= (L - 1) / step) by nia.
    lia. }
  rewrite nth_error_map, nth_error_seq.
  destruct (Nat.ltb_spec k (Z.to_nat ((L - 1) / step + 1))); [|lia].
  reflexivity.
Qed.

(** ** Slices *)

Lemma clamp_index_inside (n i : Z) : 0 <= i -> clamp_index n i = Z.min i n.
Proof.
  intros H; unfold clamp_index. destruct (Z.ltb_spec i 0); [lia | reflexivity].
Qed.

Lemma firstn_skipn_length {A : Type} (l : list A) (a n : nat) :
  length (firstn n (skipn a l)) = Nat.min n (length l - a).
Proof. now rewrite length_firstn, length_skipn. Qed.

Lemma py_slice_window {A : Type} (l : list A) (ii winlen : Z) :
  0 <= ii < Z.of_nat (length l) -> 0 < winlen ->
  py_slice l ii (ii + winlen) = firstn (Z.to_nat winlen) (skipn (Z.to_nat ii) l).
Proof.
  intros Hii Hw; unfold py_slice.
  rewrite !clamp_index_inside by lia.
  replace (Z.min ii (Z.of_nat (length l))) with ii by lia.
  destruct (Z_le_gt_dec (ii + winlen) (Z.of_nat (length l))) as [Hle|Hgt].
  - replace (Z.min (ii + winlen) (Z.of_nat (length l)) - ii) with winlen by lia.
    reflexivity.
  - replace (Z.min (ii + winlen) (Z.of_nat (length l)) - ii)
      with (Z.of_nat (length l) - ii) by lia.
    rewrite !firstn_all2; [reflexivity | |]; rewrite length_skipn; lia.
Qed.

Lemma window_real_length {A : Type} (l : list A) (ii winlen : Z) :
  0 <= ii < Z.of_nat (length l) -> 0 < winlen ->
  Z.of_nat (length (firstn (Z.to_nat winlen) (skipn (Z.to_nat ii) l))) =
  Z.min winlen (Z.of_nat (length l) - ii).
Proof.
  intros Hii Hw; rewrite firstn_skipn_length; lia.
Qed.

Lemma skipn_repeat {A : Type} (x : A) (n k : nat) :
  skipn k (repeat x n) = repeat x (n - k).
Proof.
  revert k; induction n as [|n IH]; intros [|k]; simpl; try reflexivity.
  apply IH.
Qed.

Lemma slice_fill_prefix (n len : Z) :
  0 < len <= n ->
  slice_fill (repeat false (Z.to_nat n)) 0 len true =
  repeat true (Z.to_nat len) ++ repeat false (Z.to_nat (n - len)).
Proof.
  intros H; unfold slice_fill.
  rewrite repeat_length, Z2Nat.id by lia.
  rewrite !clamp_index_inside by lia.
  replace (Z.min 0 n) with 0 by lia.
  replace (Z.min len n) with len by lia.
  destruct (Z.ltb_spec 0 len); [|lia].
  simpl. rewrite Z.sub_0_r, skipn_repeat.
  do 2 f_equal; lia.
Qed.

(** On a start inside the waveform and for a positive window length, the
    window of the loop body is the closed form [make_window]. *)
Lemma window_at_closed (winlen : Z) (pad_zero : bool) (bid : nat) (wav : list Q)
  (ii : Z) :
  0 <= ii < Z.of_nat (length wav) -> 0 < winlen ->
  window_at winlen pad_zero bid wav ii = make_window winlen pad_zero bid wav ii.
Proof.
  intros Hii Hw; unfold window_at, make_window.
  rewrite py_slice_window by assumption.
  rewrite window_real_length by assumption.
  set (n := Z.min winlen (Z.of_nat (length wav) - ii)).
  set (real := firstn (Z.to_nat winlen) (skipn (Z.to_nat ii) wav)).
  assert (Hlen : length real = Z.to_nat n).
  { unfold real, n; rewrite firstn_skipn_length; lia. }
  assert (Hn : 0 < n <= winlen) by (unfold n; lia).
  unfold zeros_like, F_pad.
  destruct pad_zero; rewrite ?andb_true_r, ?andb_false_r.
  - destruct (Z.ltb_spec n winlen) as [Hlt|Hge].
    + f_equal.
      rewrite length_app, repeat_length, Hlen.
      replace (Z.to_nat n + Z.to_nat (winlen - n))%nat with (Z.to_nat winlen) by lia.
      apply slice_fill_prefix; lia.
    + assert (n = winlen) by lia.
      replace (winlen - n) with 0 by lia; simpl; rewrite app_nil_r.
      f_equal. rewrite Hlen.
      rewrite slice_fill_prefix by lia.
      replace (n - n) with 0 by lia; reflexivity.
  - f_equal. rewrite Hlen, slice_fill_prefix by lia.
    replace (n - n) with 0 by lia; simpl; now rewrite app_nil_r.
Qed.

(** ** The segmenter as a list of windows *)

Lemma window_body_ok (winlen : Z) (pad_zero : bool) (bid : nat) (wav : list Q)
  (acc : batch_lists) (ii : Z) :
  winlen <> 0 ->
  window_body winlen pad_zero bid wav acc ii =
  Ok (push_window acc (window_at winlen pad_zero bid wav ii)).
Proof.
  intros Hw; unfold window_body, window_at, py_true_div.
  destruct (Z.eqb_spec winlen 0); [contradiction | reflexivity].
Qed.

Lemma clip_body_ok (offset winlen : Z) (pad_zero : bool) (acc : batch_lists)
  (item : nat * list Q) :
  offset <> 0 -> winlen <> 0 ->
  clip_body offset winlen pad_zero acc item =
  Ok (fold_left push_window (clip_windows offset winlen pad_zero item) acc).
Proof.
  intros Ho Hw; destruct item as [bid wav]; unfold clip_body, clip_windows; simpl.
  rewrite py_range_list by assumption; simpl.
  rewrite for_each_pure
    with (g := fun acc ii => push_window acc (window_at winlen pad_zero bid wav ii)).
  - f_equal. generalize (range_list 0 (Z.of_nat (length wav)) offset); intros l.
    revert acc; induction l as [|x l IH]; intros acc; simpl; [reflexivity | apply IH].
  - intros; now apply window_body_ok.
Qed.

Lemma batch_push_app (ws : list window) (acc : list window) :
  fold_left push_window ws (batch_of acc) = batch_of (acc ++ ws).
Proof.
  rewrite push_window_fold; unfold batch_of; simpl; now rewrite !map_app.
Qed.

Lemma clips_fold (offset winlen : Z) (pad_zero : bool)
  (items : list (nat * list Q)) (acc : list window) :
  offset <> 0 -> winlen <> 0 ->
  for_each (clip_body offset winlen pad_zero) items (batch_of acc) =
  Ok (batch_of (acc ++ flat_map (clip_windows offset winlen pad_zero) items)).
Proof.
  intros Ho Hw; revert acc; induction items as [|it items IH]; intros acc; simpl.
  - now rewrite app_nil_r.
  - rewrite clip_body_ok by assumption; simpl.
    rewrite batch_push_app, IH, app_assoc; reflexivity.
Qed.

(** The segmenter returns the windows of every clip, clip after clip. *)
Lemma make_inference_batch_windows (input_wavs : list (list Q))
  (hop_size window_size sample_rate : Z) (pad_zero : bool) :
  hop_size * sample_rate <> 0 -> window_size * sample_rate <> 0 ->
  make_inference_batch input_wavs hop_size window_size sample_rate pad_zero =
  Ok (batch_of (all_windows (hop_size * sample_rate) (window_size * sample_rate)
                  pad_zero input_wavs)).
Proof.
  intros Ho Hw; unfold make_inference_batch, all_windows.
  change empty_batch with (batch_of []).
  now rewrite clips_fold.
Qed.

Lemma make_inference_batch_zero_hop (x : list Q) (input_wavs : list (list Q))
  (hop_size window_size sample_rate : Z) (pad_zero : bool) :
  hop_size * sample_rate = 0 ->
  make_inference_batch (x :: input_wavs) hop_size window_size sample_rate pad_zero
  = Raise ValueError.
Proof.
  intros H; unfold make_inference_batch, enumerate; simpl.
  unfold py_range; rewrite H; reflexivity.
Qed.

Lemma make_inference_batch_inv (input_wavs : list (list Q))
  (hop_size window_size sample_rate : Z) (pad_zero : bool) (b : batch_lists) :
  window_size * sample_rate <> 0 ->
  make_inference_batch input_wavs hop_size window_size sample_rate pad_zero = Ok b ->
  b = batch_of (all_windows (hop_size * sample_rate) (window_size * sample_rate)
                  pad_zero input_wavs).
Proof.
  intros Hw Hb.
  destruct (Z.eq_dec (hop_size * sample_rate) 0) as [Ho|Ho].
  - destruct input_wavs as [|x l].
    + inversion Hb; reflexivity.
    + rewrite make_inference_batch_zero_hop in Hb by assumption; discriminate.
  - rewrite make_inference_batch_windows in Hb by assumption.
    inversion Hb; reflexivity.
Qed.

Lemma enumerate_from_In {A : Type} (l : list A) (s i : nat) (x : A) :
  In (i, x) (combine (seq s (length l)) l) <->
  (s <= i)%nat /\ nth_error l (i - s) = Some x.
Proof.
  revert s; induction l as [|y l IH]; intros s; simpl.
  - split; [tauto | intros [_ H]; destruct (i - s)%nat; discriminate].
  - rewrite IH; split.
    + intros [H | [Hle H]].
      * inversion H; subst; split; [lia|]. now rewrite Nat.sub_diag.
      * split; [lia|]. replace (i - s)%nat with (S (i - S s)) by lia. exact H.
    + intros [Hle H]. destruct (Nat.eq_dec i s) as [->|Hne].
      * rewrite Nat.sub_diag in H; simpl in H; inversion H; now left.
      * right; split; [lia|].
        replace (i - s)%nat with (S (i - S s)) in H by lia. exact H.
Qed.

Lemma enumerate_In {A : Type} (l : list A) (i : nat) (x : A) :
  In (i, x) (enumerate l) <-> nth_error l i = Some x.
Proof.
  unfold enumerate; rewrite enumerate_from_In, Nat.sub_0_r.
  split; [tauto | split; [lia | assumption]].
Qed.

(** Every window of the batch is cut from some clip at a start of its
    range, and carries the index of that clip. *)
Lemma all_windows_In (offset winlen : Z) (pad_zero : bool)
  (input_wavs : list (list Q)) (w : window) :
  In w (all_windows offset winlen pad_zero input_wavs) ->
  exists bid wav ii,
    nth_error input_wavs bid = Some wav /\
    In ii (range_list 0 (Z.of_nat (length wav)) offset) /\
    w = window_at winlen pad_zero bid wav ii.
Proof.
  unfold all_windows; intros H.
  apply in_flat_map in H as ([bid wav] & Hit & Hw).
  apply enumerate_In in Hit.
  unfold clip_windows in Hw; simpl in Hw.
  apply in_map_iff in Hw as (ii & <- & Hii).
  exists bid, wav, ii; auto.
Qed.

Lemma all_windows_closed (offset winlen : Z) (pad_zero : bool)
  (input_wavs : list (list Q)) (w : window) :
  0 < winlen ->
  In w (all_windows offset winlen pad_zero input_wavs) ->
  exists bid wav ii,
    nth_error input_wavs bid = Some wav /\
    0 <= ii < Z.of_nat (length wav) /\
    w = make_window winlen pad_zero bid wav ii.
Proof.
  intros Hw H. apply all_windows_In in H as (bid & wav & ii & Hn & Hii & ->).
  apply range_list_In in Hii as (k & _ & Hr & _); [|lia].
  exists bid, wav, ii; repeat split; try lia; try assumption.
  now apply window_at_closed.
Qed.

(** ** Weights *)

Lemma ratio_bounds (n w : Z) :
  0 < n <= w ->
  (0 < inject_Z n / inject_Z w /\ inject_Z n / inject_Z w <= 1 /\
   (inject_Z n / inject_Z w == 1 <-> n = w))%Q.
Proof.
  intros H.
  destruct w as [|pw|pw]; try lia.
  destruct n as [|pn|pn]; try lia.
  unfold Qdiv, Qinv, Qmult, Qlt, Qle, Qeq, inject_Z; simpl.
  repeat split; try lia.
Qed.

Lemma filter_true_mask (n m : nat) :
  length (filter (fun x : bool => x) (repeat true n ++ repeat false m)) = n.
Proof.
  induction n as [|n IH]; simpl; [|now rewrite IH].
  induction m as [|m IH]; simpl; auto.
Qed.

Lemma forallb_true_mask (n m : nat) :
  forallb (fun x : bool => x) (repeat true n ++ repeat false m) = true <-> m = 0%nat.
Proof.
  induction n as [|n IH]; simpl; [|exact IH].
  destruct m; simpl; split; auto; discriminate.
Qed.

Lemma make_window_real_samples (winlen : Z) (pad_zero : bool) (bid : nat)
  (wav : list Q) (ii : Z) :
  0 <= ii < Z.of_nat (length wav) -> 0 < winlen ->
  real_samples (make_window winlen pad_zero bid wav ii) =
  Z.min winlen (Z.of_nat (length wav) - ii).
Proof.
  intros Hii Hw; unfold real_samples, make_window.
  destruct pad_zero; simpl.
  - rewrite filter_true_mask; lia.
  - rewrite <- (app_nil_r (repeat true _)).
    change (@nil bool) with (repeat false 0).
    rewrite filter_true_mask; lia.
Qed.

Lemma make_window_weight (winlen : Z) (pad_zero : bool) (bid : nat)
  (wav : list Q) (ii : Z) :
  w_weight (make_window winlen pad_zero bid wav ii) =
  (inject_Z (Z.min winlen (Z.of_nat (length wav) - ii)) / inject_Z winlen)%Q.
Proof. unfold make_window; destruct pad_zero; reflexivity. Qed.

(** ** Empty waveforms *)

(** C2, as stated, fails on the code: with zero-padding enabled (the
    default) an empty waveform does not yield one all-padding window; the
    loop over [range(0, 0, offset)] never runs and no window is built. *)
Lemma empty_waveform_padded_counterexample :
  make_inference_batch [[]] 10 10 16000 true = Ok empty_batch /\
  length (batch_windows empty_batch) <> 1%nat.
Proof. split; [reflexivity | discriminate]. Qed.

(** C2, amended: for an empty waveform the segmenter yields no window at
    all, with zero-padding enabled as well as disabled (for every non-zero
    hop). *)
Theorem empty_waveform_no_windows (hop_size window_size sample_rate : Z)
  (pad_zero : bool) :
  hop_size * sample_rate <> 0 ->
  make_inference_batch [[]] hop_size window_size sample_rate pad_zero
  = Ok empty_batch.
Proof.
  intros Ho; unfold make_inference_batch, enumerate; simpl.
  rewrite py_range_list by assumption; simpl.
  unfold range_list; rewrite range_len_empty; reflexivity.
Qed.

Lemma empty_waveform_no_windows_witness :
  10 * 16000 <> 0 /\
  make_inference_batch [[]] 10 10 16000 false = Ok empty_batch.
Proof.
  split; [lia | apply (empty_waveform_no_windows 10 10 16000 false); lia].
Defined.

(** ** Number of windows *)

Lemma window_at_bid (winlen : Z) (pad_zero : bool) (bid : nat) (wav : list Q) (ii : Z) :
  w_bid (window_at winlen pad_zero bid wav ii) = bid.
Proof. reflexivity. Qed.

Lemma clip_windows_filter (offset winlen : Z) (pad_zero : bool)
  (bid j : nat) (wav : list Q) :
  filter (fun w => Nat.eqb (w_bid w) j) (clip_windows offset winlen pad_zero (bid, wav))
  = if Nat.eqb bid j then clip_windows offset winlen pad_zero (bid, wav) else [].
Proof.
  unfold clip_windows; simpl.
  induction (range_list 0 (Z.of_nat (length wav)) offset) as [|ii l IH]; simpl.
  - now destruct (Nat.eqb bid j).
  - rewrite IH; destruct (Nat.eqb bid j); reflexivity.
Qed.

Lemma windows_from_bid (offset winlen : Z) (pad_zero : bool)
  (l : list (list Q)) (s : nat) (w : window) :
  In w (flat_map (clip_windows offset winlen pad_zero) (combine (seq s (length l)) l)) ->
  (s <= w_bid w)%nat.
Proof.
  intros H; apply in_flat_map in H as ([bid wav] & Hit & Hw).
  apply enumerate_from_In in Hit as [Hle _].
  unfold clip_windows in Hw; apply in_map_iff in Hw as (ii & <- & _).
  exact Hle.
Qed.

Lemma filter_nothing {A : Type} (f : A -> bool) (l : list A) :
  (forall x, In x l -> f x = false) -> filter f l = [].
Proof.
  induction l as [|x l IH]; intros H; simpl; [reflexivity|].
  rewrite (H x) by (now left). apply IH; intros; apply H; now right.
Qed.

(** The windows of clip [s + i] inside the batch are exactly the windows
    cut from that clip. *)
Lemma windows_of_clip (offset winlen : Z) (pad_zero : bool)
  (l : list (list Q)) (s i : nat) (wav : list Q) :
  nth_error l i = Some wav ->
  filter (fun w => Nat.eqb (w_bid w) (s + i))
    (flat_map (clip_windows offset winlen pad_zero) (combine (seq s (length l)) l))
  = clip_windows offset winlen pad_zero ((s + i)%nat, wav).
Proof.
  revert s i; induction l as [|x l IH]; intros s i Hn; [destruct i; discriminate|].
  simpl. rewrite filter_app, clip_windows_filter.
  destruct i as [|i]; simpl in Hn.
  - inversion Hn; subst x. rewrite Nat.add_0_r, Nat.eqb_refl.
    rewrite filter_nothing; [now rewrite app_nil_r|].
    intros w Hw; apply windows_from_bid in Hw.
    apply Nat.eqb_neq; lia.
  - destruct (Nat.eqb_spec s (s + S i)); [lia|]. simpl.
    replace (s + S i)%nat with (S s + i)%nat by lia.
    now apply IH.
Qed.

Lemma no_windows_of_missing_clip (offset winlen : Z) (pad_zero : bool)
  (l : list (list Q)) (i : nat) :
  nth_error l i = Some [] ->
  filter (fun w => Nat.eqb (w_bid w) i) (all_windows offset winlen pad_zero l) = [].
Proof.
  intros Hn; unfold all_windows, enumerate.
  pose proof (windows_of_clip offset winlen pad_zero l 0 i [] Hn) as H.
  simpl in H; rewrite H.
  unfold clip_windows, range_list; simpl. now rewrite range_len_empty.
Qed.

(** C4: every non-empty waveform of [L] samples is cut into exactly
    [ceil(L / hop)] windows, where [hop = hop_size * sample_rate] is
    positive (and the window length is not zero, so that no weight
    computation raises). The count is the one of the windows carrying the
    index of that clip in the batch. *)
Theorem window_count_is_ceil (input_wavs : list (list Q))
  (hop_size window_size sample_rate : Z) (pad_zero : bool)
  (bii : nat) (wav : list Q) :
  0 < hop_size * sample_rate ->
  window_size * sample_rate <> 0 ->
  nth_error input_wavs bii = Some wav ->
  wav <> [] ->
  exists b,
    make_inference_batch input_wavs hop_size window_size sample_rate pad_zero = Ok b /\
    Z.of_nat (clip_window_count b bii) =
    ceil_div (Z.of_nat (length wav)) (hop_size * sample_rate).
Proof.
  intros Ho Hw Hn Hne.
  rewrite make_inference_batch_windows by (try assumption; lia).
  eexists; split; [reflexivity|].
  unfold clip_window_count; rewrite batch_windows_of.
  unfold all_windows, enumerate.
  pose proof (windows_of_clip (hop_size * sample_rate) (window_size * sample_rate)
                pad_zero input_wavs 0 bii wav Hn) as Hc.
  simpl in Hc; rewrite Hc.
  unfold clip_windows, range_list; simpl.
  rewrite length_map, length_map, length_seq.
  assert (0 < Z.of_nat (length wav)) by (destruct wav; [congruence | simpl; lia]).
  rewrite range_len_ceil by assumption.
  pose proof (ceil_div_spec (Z.of_nat (length wav)) (hop_size * sample_rate) Ho).
  rewrite Z2Nat.id; [reflexivity | nia].
Qed.

Lemma window_count_is_ceil_witness :
  exists b,
    make_inference_batch [[1; 2; 3; 4; 5]%Q; []; [7%Q]] 2 3 1 true = Ok b /\
    Z.of_nat (clip_window_count b 0) = ceil_div 5 (2 * 1).
Proof.
  apply (window_count_is_ceil [[1; 2; 3; 4; 5]%Q; []; [7%Q]] 2 3 1 true 0
           [1; 2; 3; 4; 5]%Q); [lia | lia | reflexivity | discriminate].
Defined.

(** ** Weights *)

(** C5: every window the segmenter produces has a weight in (0, 1], and
    the weight is 1 exactly when the number of real samples of the window
    (the [True] entries of its mask) is the full window length; with
    zero-padding on, that is exactly when the mask flags no padding. *)
Theorem weight_bound (input_wavs : list (list Q))
  (hop_size window_size sample_rate : Z) (pad_zero : bool)
  (b : batch_lists) (w : window) :
  0 < window_size * sample_rate ->
  make_inference_batch input_wavs hop_size window_size sample_rate pad_zero = Ok b ->
  In w (batch_windows b) ->
  (0 < w_weight w /\ w_weight w <= 1)%Q /\
  ((w_weight w == 1)%Q <-> real_samples w = window_size * sample_rate) /\
  (pad_zero = true ->
   ((w_weight w == 1)%Q <-> forallb (fun x => x) (w_mask w) = true)).
Proof.
  intros Hw Hb Hin.
  apply make_inference_batch_inv in Hb; [|lia]. subst b.
  rewrite batch_windows_of in Hin.
  apply all_windows_closed in Hin as (bid & wav & ii & Hn & Hii & ->); [|assumption].
  set (winlen := window_size * sample_rate) in *.
  rewrite make_window_real_samples, make_window_weight by assumption.
  set (n := Z.min winlen (Z.of_nat (length wav) - ii)).
  assert (Hn' : 0 < n <= winlen) by (unfold n; lia).
  destruct (ratio_bounds n winlen Hn') as (H0 & H1 & Heq).
  split; [split; assumption|].
  split; [exact Heq|].
  intros ->; unfold make_window; fold n; simpl.
  rewrite forallb_true_mask, Heq. lia.
Qed.

Lemma weight_bound_witness :
  (0 < 1 # 3 /\ 1 # 3 <= 1)%Q /\
  ((1 # 3 == 1)%Q <->
   real_samples (mk_window [5; 0; 0]%Q [true; false; false] (1 # 3) 0) = 3 * 1) /\
  (true = true ->
   ((1 # 3 == 1)%Q <-> forallb (fun x => x) [true; false; false] = true)).
Proof.
  apply (weight_bound [[1; 2; 3; 4; 5]%Q] 2 3 1 true
           (mk_batch [[1; 2; 3]; [3; 4; 5]; [5; 0; 0]]%Q
              [[true; true; true]; [true; true; true]; [true; false; false]]
              [3 # 3; 3 # 3; 1 # 3] [0; 0; 0]%nat)
           (mk_window [5; 0; 0]%Q [true; false; false] (1 # 3) 0)).
  - lia.
  - reflexivity.
  - simpl; right; right; left; reflexivity.
Defined.

(** ** Windows without zero-padding *)

Lemma unequal_window_lengths_example :
  exists b u v,
    make_inference_batch [[1; 2; 3]%Q] 2 2 1 false = Ok b /\
    In u (wavs b) /\ In v (wavs b) /\ length u <> length v.
Proof.
  exists (mk_batch [[1; 2]; [3]]%Q [[true; true]; [true]] [2 # 2; 1 # 2] [0; 0]%nat),
    [1; 2]%Q, [3%Q].
  split; [reflexivity|]. simpl. split; [auto|]. split; [auto | discriminate].
Qed.

(** C10: with zero-padding disabled every window keeps the length of its
    slice, [min(winlen, L - i)] for the start [i] (so a trailing window may
    be shorter than [winlen]), and its mask is [True] everywhere; a batch
    can therefore hold windows of unequal lengths. *)
Theorem unpadded_windows_keep_length :
  (forall (input_wavs : list (list Q)) (hop_size window_size sample_rate : Z)
          (b : batch_lists) (w : window),
      0 < window_size * sample_rate ->
      make_inference_batch input_wavs hop_size window_size sample_rate false = Ok b ->
      In w (batch_windows b) ->
      exists wav ii,
        nth_error input_wavs (w_bid w) = Some wav /\
        In ii (range_list 0 (Z.of_nat (length wav)) (hop_size * sample_rate)) /\
        w_samples w = py_slice wav ii (ii + window_size * sample_rate) /\
        Z.of_nat (length (w_samples w)) =
          Z.min (window_size * sample_rate) (Z.of_nat (length wav) - ii) /\
        w_mask w = repeat true (length (w_samples w))) /\
  (exists b u v,
      make_inference_batch [[1; 2; 3]%Q] 2 2 1 false = Ok b /\
      In u (wavs b) /\ In v (wavs b) /\ length u <> length v).
Proof.
  split; [|exact unequal_window_lengths_example].
  intros input_wavs hop_size window_size sample_rate b w Hw Hb Hin.
  apply make_inference_batch_inv in Hb; [|lia]. subst b.
  rewrite batch_windows_of in Hin.
  apply all_windows_In in Hin as (bid & wav & ii & Hn & Hii & ->).
  exists wav, ii.
  pose proof (range_list_In _ _ _ Hii ltac:(lia)) as (k & _ & Hr & _).
  rewrite window_at_closed by assumption.
  rewrite py_slice_window by assumption.
  unfold make_window; simpl.
  rewrite window_real_length by assumption.
  repeat split; try assumption.
  f_equal. rewrite firstn_skipn_length; lia.
Qed.

Lemma unpadded_windows_keep_length_witness :
  exists wav ii,
    nth_error [[1; 2; 3]%Q] 0 = Some wav /\
    In ii (range_list 0 (Z.of_nat (length wav)) (2 * 1)) /\
    [3%Q] = py_slice wav ii (ii + 2 * 1) /\
    Z.of_nat (length [3%Q]) = Z.min (2 * 1) (Z.of_nat (length wav) - ii) /\
    [true] = repeat true (length [3%Q]).
Proof.
  apply (proj1 unpadded_windows_keep_length [[1; 2; 3]%Q] 2 2 1
           (mk_batch [[1; 2]; [3]]%Q [[true; true]; [true]] [2 # 2; 1 # 2] [0; 0]%nat)
           (mk_window [3%Q] [true] (1 # 2) 0)).
  - lia.
  - reflexivity.
  - simpl; right; left; reflexivity.
Defined.

(** ** Coverage *)

(** C6, as stated, fails on the code: hop and window length are
    independent parameters, and with a hop larger than the window the
    slices leave gaps.  With hop 2 and window 1 on three samples, the
    sample at index 1 is in no window. *)
Lemma coverage_gap_counterexample :
  py_range 0 3 (2 * 1) = Ok [0; 2] /\
  sample_covered [0; 2] (1 * 1) 1 = false /\
  make_inference_batch [[7; 8; 9]%Q] 2 1 1 true =
  Ok (mk_batch [[7%Q]; [9%Q]] [[true]; [true]] [1 # 1; 1 # 1] [0; 0]%nat).
Proof. repeat split. Qed.

(** C6, amended: when the hop is positive and not larger than the window
    length, every sample index of the waveform lies in the slice of some
    window, and that window holds the sample, flagged as real in its
    mask. *)
Theorem windows_cover_waveform (wav : list Q)
  (hop_size window_size sample_rate : Z) (pad_zero : bool)
  (b : batch_lists) (j : nat) :
  0 < hop_size * sample_rate ->
  hop_size * sample_rate <= window_size * sample_rate ->
  make_inference_batch [wav] hop_size window_size sample_rate pad_zero = Ok b ->
  (j < length wav)%nat ->
  sample_covered (range_list 0 (Z.of_nat (length wav)) (hop_size * sample_rate))
    (window_size * sample_rate) (Z.of_nat j) = true /\
  exists (k : nat) (w : window),
    nth_error (batch_windows b) k = Some w /\
    Z.of_nat k * (hop_size * sample_rate) <= Z.of_nat j
      < Z.of_nat k * (hop_size * sample_rate) + window_size * sample_rate /\
    nth_error (w_samples w)
      (Z.to_nat (Z.of_nat j - Z.of_nat k * (hop_size * sample_rate)))
    = nth_error wav j /\
    nth_error (w_mask w)
      (Z.to_nat (Z.of_nat j - Z.of_nat k * (hop_size * sample_rate)))
    = Some true.
Proof.
  set (offset := hop_size * sample_rate).
  set (winlen := window_size * sample_rate).
  intros Ho Hle Hb Hj.
  apply make_inference_batch_inv in Hb; [|lia]. subst b.
  rewrite batch_windows_of.
  fold offset winlen.
  set (k := Z.to_nat (Z.of_nat j / offset)).
  assert (Hk : Z.of_nat k = Z.of_nat j / offset).
  { unfold k; rewrite Z2Nat.id; [reflexivity | apply Z.div_pos; lia]. }
  pose proof (Z.div_mod (Z.of_nat j) offset ltac:(lia)) as Hd.
  pose proof (Z.mod_pos_bound (Z.of_nat j) offset Ho) as Hm.
  set (ii := Z.of_nat k * offset).
  assert (Hii : ii <= Z.of_nat j < ii + offset) by (unfold ii; rewrite Hk; lia).
  assert (Hii0 : 0 <= ii) by (unfold ii; nia).
  assert (Hnth : nth_error (range_list 0 (Z.of_nat (length wav)) offset) k = Some ii).
  { apply range_list_nth; [assumption | fold ii; lia]. }
  split.
  - unfold sample_covered; apply existsb_exists.
    exists ii; split; [eapply nth_error_In; eassumption|].
    apply andb_true_iff; split; [apply Z.leb_le | apply Z.ltb_lt]; lia.
  - exists k, (make_window winlen pad_zero 0 wav ii).
    split.
    { unfold all_windows, enumerate; simpl. rewrite app_nil_r.
      unfold clip_windows; simpl.
      rewrite nth_error_map, Hnth; simpl.
      f_equal; apply window_at_closed; lia. }
    split; [lia|].
    set (pos := Z.to_nat (Z.of_nat j - ii)).
    set (n := Z.min winlen (Z.of_nat (length wav) - ii)).
    assert (Hpos : (pos < Z.to_nat n)%nat) by (unfold pos, n; lia).
    assert (Hreal : nth_error (firstn (Z.to_nat winlen) (skipn (Z.to_nat ii) wav)) pos
                    = nth_error wav j).
    { rewrite nth_error_firstn, nth_error_skipn.
      destruct (Nat.ltb_spec pos (Z.to_nat winlen)); [|lia].
      f_equal; unfold pos; lia. }
    assert (Hlen : length (firstn (Z.to_nat winlen) (skipn (Z.to_nat ii) wav))
                   = Z.to_nat n).
    { rewrite firstn_skipn_length; unfold n; lia. }
    unfold make_window; fold n; destruct pad_zero; simpl.
    + rewrite !nth_error_app1
        by (rewrite ?Hlen, ?repeat_length; assumption).
      split; [assumption | now apply nth_error_repeat].
    + split; [assumption | now apply nth_error_repeat].
Qed.

Lemma windows_cover_waveform_witness :
  sample_covered (range_list 0 (Z.of_nat (length [7; 8; 9]%Q)) (2 * 1))
    (2 * 1) (Z.of_nat 1) = true /\
  exists (k : nat) (w : window),
    nth_error
      (batch_windows
         (mk_batch [[7; 8]; [9; 0]]%Q [[true; true]; [true; false]]
            [2 # 2; 1 # 2] [0; 0]%nat)) k = Some w /\
    Z.of_nat k * (2 * 1) <= Z.of_nat 1 < Z.of_nat k * (2 * 1) + 2 * 1 /\
    nth_error (w_samples w) (Z.to_nat (Z.of_nat 1 - Z.of_nat k * (2 * 1)))
    = nth_error [7; 8; 9]%Q 1 /\
    nth_error (w_mask w) (Z.to_nat (Z.of_nat 1 - Z.of_nat k * (2 * 1)))
    = Some true.
Proof.
  apply (windows_cover_waveform [7; 8; 9]%Q 2 2 1 true); [lia | lia | reflexivity |].
  simpl; lia.
Defined.

(** ** Selection of the windows of a clip *)

Lemma mask_select {A : Type} (t : list A) (ids : list nat) (bii : nat) :
  map fst (filter snd (combine t (tensor_eq_scalar ids bii))) = select_clip ids bii t.
Proof.
  unfold select_clip, tensor_eq_scalar.
  revert ids; induction t as [|x t IH]; intros [|i ids]; simpl; try reflexivity.
  destruct (Nat.eqb i bii); simpl; now rewrite IH.
Qed.

Lemma mask_index_select {A : Type} (t : list A) (ids : list nat) (bii : nat) :
  length t = length ids ->
  mask_index t (tensor_eq_scalar ids bii) = Ok (select_clip ids bii t).
Proof.
  intros H; unfold mask_index.
  unfold tensor_eq_scalar at 1; rewrite length_map, H, Nat.eqb_refl.
  now rewrite mask_select.
Qed.

Lemma mask_index_mismatch {A : Type} (t : list A) (ids : list nat) (bii : nat) :
  length t <> length ids ->
  mask_index t (tensor_eq_scalar ids bii) = Raise IndexError.
Proof.
  intros H; unfold mask_index, tensor_eq_scalar; rewrite length_map.
  destruct (Nat.eqb_spec (length t) (length ids)); [contradiction | reflexivity].
Qed.

Lemma select_clip_In {A : Type} (ids : list nat) (bii : nat) (xs : list A) (x : A) :
  In x (select_clip ids bii xs) -> In x xs.
Proof.
  unfold select_clip; intros H.
  apply in_map_iff in H as ([i y] & <- & H).
  apply filter_In in H as [H _]. eapply in_combine_r; eassumption.
Qed.

Lemma select_clip_length {A B : Type} (ids : list nat) (bii : nat)
  (xs : list A) (ys : list B) :
  length xs = length ys ->
  length (select_clip ids bii xs) = length (select_clip ids bii ys).
Proof.
  unfold select_clip.
  revert xs ys; induction ids as [|i ids IH]; intros [|x xs] [|y ys] H;
    simpl in *; try reflexivity; try discriminate.
  destruct (Nat.eqb i bii); simpl; auto.
Qed.


(** Selecting by clip id in the parallel lists is filtering the windows. *)
Lemma select_clip_windows {B : Type} (f : window -> B) (ws : list window) (bii : nat) :
  select_clip (map w_bid ws) bii (map f ws)
  = map f (filter (fun w => Nat.eqb (w_bid w) bii) ws).
Proof.
  unfold select_clip.
  induction ws as [|w ws IH]; simpl; [reflexivity|].
  destruct (Nat.eqb (w_bid w) bii); simpl; now rewrite IH.
Qed.

(** ** Arithmetic of the weighted mean *)

Lemma tensor_div_nan (num den : Q) :
  (num == 0)%Q -> (den == 0)%Q -> tensor_div num den = NaN.
Proof.
  intros Hn Hd; unfold tensor_div.
  now rewrite (Qeq_eq_bool _ _ Hd), (Qeq_eq_bool _ _ Hn).
Qed.

Lemma tensor_div_finite (num den : Q) :
  (0 < den)%Q -> tensor_div num den = Finite (num / den).
Proof.
  intros Hd; unfold tensor_div.
  destruct (Qeq_bool den 0) eqn:E; [|reflexivity].
  apply Qeq_bool_eq in E. rewrite E in Hd. now apply Qlt_irrefl in Hd.
Qed.

Lemma tensor_sum_pos (l : list Q) :
  l <> [] -> (forall x, In x l -> (0 < x)%Q) -> (0 < tensor_sum l)%Q.
Proof.
  destruct l as [|x l]; [congruence|]; intros _ H; simpl.
  assert (Hl : (0 <= tensor_sum l)%Q).
  { assert (Hl : forall y, In y l -> (0 < y)%Q) by (intros; apply H; now right).
    clear H; induction l as [|y l IH]; simpl; [lra|].
    pose proof (Hl y (or_introl eq_refl)).
    assert (0 <= tensor_sum l)%Q by (apply IH; intros; apply Hl; now right).
    lra. }
  pose proof (H x (or_introl eq_refl)). lra.
Qed.

(** A weighted sum with non-negative weights lies between the bounds of
    the scores, scaled by the sum of the weights. *)
Lemma weighted_sum_bounds (lo hi : Q) (ps ws : list Q) :
  length ps = length ws ->
  (forall w, In w ws -> (0 <= w)%Q) ->
  (forall p, In p ps -> (lo <= p <= hi)%Q) ->
  (lo * tensor_sum ws <= tensor_sum (tensor_mul ps ws)
   /\ tensor_sum (tensor_mul ps ws) <= hi * tensor_sum ws)%Q.
Proof.
  unfold tensor_mul.
  revert ws; induction ps as [|p ps IH]; intros [|w ws] Hlen Hw Hp;
    simpl in *; try discriminate; [lra|].
  destruct (IH ws) as [IH1 IH2]; [lia | auto | auto |].
  pose proof (Hw w (or_introl eq_refl)) as Hw0.
  pose proof (Hp p (or_introl eq_refl)) as [Hp1 Hp2].
  split; nra.
Qed.

Lemma fold_Qmin_le (l : list Q) (a : Q) :
  (fold_left Qmin l a <= a)%Q /\ forall x, In x l -> (fold_left Qmin l a <= x)%Q.
Proof.
  revert a; induction l as [|y l IH]; intros a; simpl.
  - split; [apply Qle_refl | tauto].
  - destruct (IH (Qmin a y)) as [H1 H2].
    pose proof (Q.le_min_l a y). pose proof (Q.le_min_r a y).
    split; [lra|]. intros x [<-|Hx]; [lra | auto].
Qed.

Lemma fold_Qmax_ge (l : list Q) (a : Q) :
  (a <= fold_left Qmax l a)%Q /\ forall x, In x l -> (x <= fold_left Qmax l a)%Q.
Proof.
  revert a; induction l as [|y l IH]; intros a; simpl.
  - split; [apply Qle_refl | tauto].
  - destruct (IH (Qmax a y)) as [H1 H2].
    pose proof (Q.le_max_l a y). pose proof (Q.le_max_r a y).
    split; [lra|]. intros x [<-|Hx]; [lra | auto].
Qed.

Lemma Qlist_min_le (d : Q) (l : list Q) (x : Q) :
  In x l -> (Qlist_min d l <= x)%Q.
Proof.
  destruct l as [|a l]; simpl; [tauto|].
  destruct (fold_Qmin_le l a) as [H1 H2]. intros [<-|H]; auto.
Qed.

Lemma Qlist_max_ge (d : Q) (l : list Q) (x : Q) :
  In x l -> (x <= Qlist_max d l)%Q.
Proof.
  destruct l as [|a l]; simpl; [tauto|].
  destruct (fold_Qmax_ge l a) as [H1 H2]. intros [<-|H]; auto.
Qed.

(** ** The aggregation step *)

Lemma clip_score_spec (preds ws : list Q) (ids : list nat) (bii : nat) :
  length ws = length ids -> length preds = length ids ->
  clip_score preds ws ids bii =
  Ok (tensor_div
        (tensor_sum (tensor_mul (select_clip ids bii preds) (select_clip ids bii ws)))
        (tensor_sum (select_clip ids bii ws))).
Proof.
  intros Hw Hp; unfold clip_score.
  rewrite !mask_index_select by assumption. reflexivity.
Qed.

Lemma weighted_preds_loop (f : nat -> tensor_item) (body : nat -> result tensor_item)
  (l : list nat) (acc : list tensor_item) :
  (forall bii, In bii l -> body bii = Ok (f bii)) ->
  for_each (fun acc bii => v <- body bii ;; Ok (acc ++ [v])) l acc
  = Ok (acc ++ map f l).
Proof.
  revert acc; induction l as [|x l IH]; intros acc H; simpl.
  - now rewrite app_nil_r.
  - rewrite (H x) by (now left); simpl.
    rewrite IH by (intros; apply H; now right).
    now rewrite <- app_assoc.
Qed.

(** With predictions, weights and clip ids of one length, the loop over
    the clips raises nothing and yields one score per clip, in order. *)
Lemma weighted_preds_spec (preds ws : list Q) (ids : list nat) (bsz : nat) :
  length ws = length ids -> length preds = length ids ->
  weighted_preds preds ws ids bsz =
  Ok (map (fun bii =>
             tensor_div
               (tensor_sum (tensor_mul (select_clip ids bii preds)
                                       (select_clip ids bii ws)))
               (tensor_sum (select_clip ids bii ws)))
          (seq 0 bsz)).
Proof.
  intros Hw Hp; unfold weighted_preds.
  rewrite weighted_preds_loop with (f := fun bii =>
    tensor_div
      (tensor_sum (tensor_mul (select_clip ids bii preds) (select_clip ids bii ws)))
      (tensor_sum (select_clip ids bii ws))); [reflexivity|].
  intros; now apply clip_score_spec.
Qed.

(** What the segmenter guarantees about the lists the aggregation reads. *)
Lemma segmenter_weights (input_wavs : list (list Q))
  (hop_size window_size sample_rate : Z) (pad_zero : bool) (b : batch_lists) :
  0 < window_size * sample_rate ->
  make_inference_batch input_wavs hop_size window_size sample_rate pad_zero = Ok b ->
  length (weights b) = length (bids b) /\
  length (wavs b) = length (bids b) /\
  length (masks b) = length (bids b) /\
  forall x, In x (weights b) -> (0 < x <= 1)%Q.
Proof.
  intros Hw Hb. apply make_inference_batch_inv in Hb; [|lia]. subst b; simpl.
  rewrite !length_map. repeat split; try reflexivity.
  - apply in_map_iff in H as (w & <- & Hin).
    apply all_windows_closed in Hin as (bid & wav & ii & _ & Hii & ->); [|assumption].
    rewrite make_window_weight. apply ratio_bounds; lia.
  - apply in_map_iff in H as (w & <- & Hin).
    apply all_windows_closed in Hin as (bid & wav & ii & _ & Hii & ->); [|assumption].
    rewrite make_window_weight. apply ratio_bounds; lia.
Qed.

Lemma clip_score_convex (preds ws : list Q) (ids : list nat) (bii : nat) :
  length ws = length ids -> length preds = length ids ->
  (forall w, In w ws -> (0 <= w)%Q) ->
  (0 < tensor_sum (select_clip ids bii ws))%Q ->
  exists q,
    clip_score preds ws ids bii = Ok (Finite q) /\
    (q == weighted_mean (select_clip ids bii preds) (select_clip ids bii ws))%Q /\
    (Qlist_min 0 (select_clip ids bii preds) <= q)%Q /\
    (q <= Qlist_max 0 (select_clip ids bii preds))%Q.
Proof.
  intros Hw Hp Hnn Hpos.
  rewrite clip_score_spec, tensor_div_finite by assumption.
  eexists; split; [reflexivity|]. split; [reflexivity|].
  set (sp := select_clip ids bii preds) in *.
  set (sw := select_clip ids bii ws) in *.
  destruct (weighted_sum_bounds (Qlist_min 0 sp) (Qlist_max 0 sp) sp sw) as [H1 H2].
  - apply select_clip_length; congruence.
  - intros w Hin; apply Hnn. eapply select_clip_In; eassumption.
  - intros p Hin; split; [now apply Qlist_min_le | now apply Qlist_max_ge].
  - split; [now apply Qle_shift_div_l | apply Qle_shift_div_r; assumption].
Qed.

Lemma combine_nil_r {A B : Type} (l : list A) : combine l (@nil B) = [].
Proof. now destruct l. Qed.

Lemma clip_score_no_window (preds ws : list Q) (ids : list nat) (bii : nat) :
  length ws = length ids -> length preds = length ids ->
  select_clip ids bii ws = [] ->
  clip_score preds ws ids bii = Ok NaN.
Proof.
  intros Hw Hp Hsel. rewrite clip_score_spec by assumption.
  rewrite Hsel. unfold tensor_mul; rewrite combine_nil_r. reflexivity.
Qed.

Lemma positive_sum_zero_nil (l : list Q) :
  (forall x, In x l -> (0 < x)%Q) -> (tensor_sum l == 0)%Q -> l = [].
Proof.
  intros Hpos Hz. destruct l as [|x l]; [reflexivity|].
  assert (0 < tensor_sum (x :: l))%Q by (apply tensor_sum_pos; [discriminate | assumption]).
  lra.
Qed.

(** ** Convexity *)




(** ** Degenerate clips *)

(** C1, as stated, fails on the code: an empty clip next to a non-empty
    one has no window, hence a zero weight sum, and the aggregation raises
    nothing: the record of that clip holds NaN on the four axes. *)
Lemma degenerate_clip_counterexample :
  exists first,
    forward_versa (list Q) demo_resample demo_float_repr demo_predictor
      [([1%Q], 16000); ([], 16000)]
    = Ok [first;
          json_dumps demo_float_repr
            [("CE", NaN); ("CU", NaN); ("PC", NaN); ("PQ", NaN)]%string].
Proof. eexists; vm_compute; reflexivity. Qed.

(** C1, amended: the aggregation step raises no error for a clip whose
    windows have a zero weight sum (in particular an empty clip, which has
    no window): its score is NaN, the value of [0 / 0]; for a clip with a
    positive weight sum it yields the finite weighted mean.  Over a whole
    batch the loop returns one score per clip. *)
Theorem zero_weight_clip_yields_nan (input_wavs : list (list Q))
  (hop_size window_size sample_rate : Z) (pad_zero : bool) (b : batch_lists)
  (preds : list Q) (bii : nat) :
  0 < window_size * sample_rate ->
  make_inference_batch input_wavs hop_size window_size sample_rate pad_zero = Ok b ->
  length preds = length (bids b) ->
  ((tensor_sum (select_clip (bids b) bii (weights b)) == 0)%Q ->
   clip_score preds (weights b) (bids b) bii = Ok NaN) /\
  (nth_error input_wavs bii = Some [] ->
   clip_score preds (weights b) (bids b) bii = Ok NaN) /\
  ((0 < tensor_sum (select_clip (bids b) bii (weights b)))%Q ->
   exists q,
     clip_score preds (weights b) (bids b) bii = Ok (Finite q) /\
     (q == weighted_mean (select_clip (bids b) bii preds)
                         (select_clip (bids b) bii (weights b)))%Q) /\
  (forall bsz, exists vs,
     weighted_preds preds (weights b) (bids b) bsz = Ok vs /\ length vs = bsz).
Proof.
  intros Hw Hb Hp.
  destruct (segmenter_weights _ _ _ _ _ _ Hw Hb) as (Hlw & _ & _ & Hrange).
  split; [|split; [|split]].
  - intros Hz. apply clip_score_no_window; try assumption.
    apply positive_sum_zero_nil; [|assumption].
    intros x Hin. apply select_clip_In in Hin. now apply Hrange.
  - intros Hn. apply clip_score_no_window; try assumption.
    apply make_inference_batch_inv in Hb; [|lia]. subst b; simpl.
    rewrite select_clip_windows, no_windows_of_missing_clip by assumption.
    reflexivity.
  - intros Hpos.
    destruct (clip_score_convex preds (weights b) (bids b) bii) as (q & Hq & Hm & _);
      try assumption.
    + intros w Hin. apply Hrange in Hin. lra.
    + exists q; auto.
  - intros bsz. rewrite weighted_preds_spec by assumption.
    eexists; split; [reflexivity|]. now rewrite length_map, length_seq.
Qed.

Lemma zero_weight_clip_yields_nan_witness :
  ((tensor_sum (select_clip [0; 0; 0]%nat 1 [3 # 3; 3 # 3; 1 # 3]%Q) == 0)%Q ->
   clip_score [4; 2; 6]%Q [3 # 3; 3 # 3; 1 # 3]%Q [0; 0; 0]%nat 1 = Ok NaN) /\
  (nth_error [[1; 2; 3; 4; 5]%Q; []] 1 = Some [] ->
   clip_score [4; 2; 6]%Q [3 # 3; 3 # 3; 1 # 3]%Q [0; 0; 0]%nat 1 = Ok NaN) /\
  ((0 < tensor_sum (select_clip [0; 0; 0]%nat 1 [3 # 3; 3 # 3; 1 # 3]%Q))%Q ->
   exists q,
     clip_score [4; 2; 6]%Q [3 # 3; 3 # 3; 1 # 3]%Q [0; 0; 0]%nat 1 = Ok (Finite q) /\
     (q == weighted_mean (select_clip [0; 0; 0]%nat 1 [4; 2; 6]%Q)
                         (select_clip [0; 0; 0]%nat 1 [3 # 3; 3 # 3; 1 # 3]%Q))%Q) /\
  (forall bsz, exists vs,
     weighted_preds [4; 2; 6]%Q [3 # 3; 3 # 3; 1 # 3]%Q [0; 0; 0]%nat bsz = Ok vs /\
     length vs = bsz).
Proof.
  apply (zero_weight_clip_yields_nan [[1; 2; 3; 4; 5]%Q; []] 2 3 1 true
           (mk_batch [[1; 2; 3]; [3; 4; 5]; [5; 0; 0]]%Q
              [[true; true; true]; [true; true; true]; [true; false; false]]
              [3 # 3; 3 # 3; 1 # 3] [0; 0; 0]%nat) [4; 2; 6]%Q 1).
  - lia.
  - reflexivity.
  - reflexivity.
Defined.

(** ** The weighted mean *)

Lemma range_list_nonempty (L step : Z) :
  0 < L -> 0 < step -> range_list 0 L step <> [].
Proof.
  intros HL Hs H.
  pose proof (range_list_nth L step 0 Hs ltac:(simpl; lia)) as Hn.
  rewrite H in Hn; discriminate.
Qed.





(** ** Records of [forward_versa] *)

Lemma torch_stack_ok {A : Type} (ts : list (list A)) (n : nat) :
  ts <> [] -> (forall t, In t ts -> length t = n) -> torch_stack ts = Ok ts.
Proof.
  destruct ts as [|t rest]; [congruence|]; intros _ H; simpl.
  replace (forallb (fun u => Nat.eqb (length u) (length t)) rest) with true;
    [reflexivity|].
  symmetry; apply forallb_forall; intros u Hu.
  apply Nat.eqb_eq. rewrite (H u), (H t); simpl; auto.
Qed.

Lemma make_window_padded_lengths (winlen : Z) (bid : nat) (wav : list Q) (ii : Z) :
  0 <= ii < Z.of_nat (length wav) -> 0 < winlen ->
  length (w_samples (make_window winlen true bid wav ii)) = Z.to_nat winlen /\
  length (w_mask (make_window winlen true bid wav ii)) = Z.to_nat winlen.
Proof.
  intros Hii Hw; unfold make_window; simpl.
  rewrite !length_app, !repeat_length, firstn_skipn_length. lia.
Qed.

Lemma zip_star_upto_columns {A X : Type} (f1 f2 f3 f4 : X -> A) (l : list X) :
  zip_star_upto (length l) [map f1 l; map f2 l; map f3 l; map f4 l]
  = map (fun x => [f1 x; f2 x; f3 x; f4 x]) l.
Proof.
  induction l as [|x l IH]; simpl; [reflexivity | now rewrite IH].
Qed.

Lemma zip_star_columns {A X : Type} (f1 f2 f3 f4 : X -> A) (l : list X) :
  zip_star [map f1 l; map f2 l; map f3 l; map f4 l]
  = map (fun x => [f1 x; f2 x; f3 x; f4 x]) l.
Proof.
  unfold zip_star. rewrite length_map. apply zip_star_upto_columns.
Qed.

(** A predictor that [__init__] returned has the sample rate 16000, the
    network of the checkpoint and a transform for each of the four axes. *)
Lemma init_ok_inv (ckpt : checkpoint) (pth prec : string) (bs : Z) (dev : string)
  (self : predictor) :
  snd (init ckpt pth prec bs dev) = Ok self ->
  exists n1 n2 n3 n4,
    self = mk_predictor pth prec bs 16000 dev (dict_get_none precision_table prec)
             (ckpt_model ckpt)
             [("CE", n1); ("CU", n2); ("PC", n3); ("PQ", n4)]%string.
Proof.
  unfold init, setup_model, build_target_transform; simpl.
  destruct (dict_get (ckpt_target_transform ckpt) "CE") as [m1|]; simpl; [|discriminate].
  destruct (dict_get (ckpt_target_transform ckpt) "CU") as [m2|]; simpl; [|discriminate].
  destruct (dict_get (ckpt_target_transform ckpt) "PC") as [m3|]; simpl; [|discriminate].
  destruct (dict_get (ckpt_target_transform ckpt) "PQ") as [m4|]; simpl; [|discriminate].
  intros H; inversion H. do 4 eexists; reflexivity.
Qed.

Lemma all_windows_nonempty (offset winlen : Z) (pad_zero : bool)
  (input_wavs : list (list Q)) (wav : list Q) :
  0 < offset -> In wav input_wavs -> wav <> [] ->
  all_windows offset winlen pad_zero input_wavs <> [].
Proof.
  intros Ho Hin Hne Hnil.
  apply In_nth_error in Hin as (i & Hi).
  pose proof (windows_of_clip offset winlen pad_zero input_wavs 0 i wav Hi) as Hc.
  simpl in Hc. unfold all_windows, enumerate in Hnil. rewrite Hnil in Hc; simpl in Hc.
  unfold clip_windows in Hc; simpl in Hc.
  symmetry in Hc; apply map_eq_nil in Hc.
  revert Hc; apply range_list_nonempty; [|assumption].
  destruct wav; [congruence | simpl; lia].
Qed.

Section ForwardProperties.

Variable raw_audio : Type.
Variable resample_mono : raw_audio -> Z -> Z -> list Q.
Variable float_repr : Q -> string.

(** On a batch with at least one non-empty clip, and a network that
    returns one score per window, [forward_versa] returns the records of
    the clips [0 .. bsz - 1], in that order. *)
Lemma forward_versa_rows (self : predictor) (batch : list (raw_audio * Z))
  (n1 n2 n3 n4 : Normalize) :
  sample_rate self = 16000 ->
  target_transform self = [("CE", n1); ("CU", n2); ("PC", n3); ("PQ", n4)]%string ->
  (forall ws ms axis, length (model self ws ms axis) = length ws) ->
  (exists item, In item batch /\ resample_mono (fst item) (snd item) 16000 <> []) ->
  exists b,
    make_inference_batch
      (audio_resample_mono_versa raw_audio resample_mono self batch)
      10 10 16000 true = Ok b /\
    forward_versa raw_audio resample_mono float_repr self batch =
    Ok (map (fun bii => json_dumps float_repr (clip_record self b bii))
            (seq 0 (length batch))).
Proof.
  intros Hsr Htt Hmodel (item & Hitem & Hne).
  unfold forward_versa.
  rewrite Hsr.
  set (wavs0 := audio_resample_mono_versa raw_audio resample_mono self batch).
  rewrite make_inference_batch_windows by lia.
  set (ws := all_windows (10 * 16000) (10 * 16000) true wavs0).
  exists (batch_of ws); split; [reflexivity|].
  assert (Hws : ws <> []).
  { apply all_windows_nonempty with (wav := resample_mono (fst item) (snd item) 16000);
      [lia | | assumption].
    unfold wavs0, audio_resample_mono_versa; rewrite Hsr.
    apply in_map_iff; exists item; auto. }
  assert (Hshape : forall w, In w ws ->
            length (w_samples w) = Z.to_nat (10 * 16000) /\
            length (w_mask w) = Z.to_nat (10 * 16000)).
  { intros w Hw. apply all_windows_closed in Hw as (bid & wav & ii & _ & Hii & ->);
      [|lia].
    apply make_window_padded_lengths; [assumption | lia]. }
  clearbody ws. clear Hne Hitem item.
  cbn beta iota delta [bind].
  rewrite (torch_stack_ok (wavs (batch_of ws)) (Z.to_nat (10 * 16000))).
  2:{ unfold batch_of; cbn [wavs]. intros H; apply map_eq_nil in H; contradiction. }
  2:{ unfold batch_of; cbn [wavs]. intros t Ht.
      apply in_map_iff in Ht as (w & <- & Hw). now apply Hshape. }
  cbn beta iota delta [bind].
  rewrite (torch_stack_ok (masks (batch_of ws)) (Z.to_nat (10 * 16000))).
  2:{ unfold batch_of; cbn [masks]. intros H; apply map_eq_nil in H; contradiction. }
  2:{ unfold batch_of; cbn [masks]. intros t Ht.
      apply in_map_iff in Ht as (w & <- & Hw). now apply Hshape. }
  cbn beta iota delta [bind].
  assert (Hl1 : length (weights (batch_of ws)) = length (bids (batch_of ws)))
    by (unfold batch_of; cbn [weights bids]; now rewrite !length_map).
  assert (Hl2 : forall t axis,
            length (inverse t (model self (wavs (batch_of ws)) (masks (batch_of ws)) axis))
            = length (bids (batch_of ws))).
  { intros t axis. unfold inverse; rewrite length_map, Hmodel.
    unfold batch_of; cbn [wavs bids]; now rewrite !length_map. }
  replace (Nat.eqb (length (wavs (batch_of ws))) (length (masks (batch_of ws)))
           && Nat.eqb (length (masks (batch_of ws))) (length (weights (batch_of ws)))
           && Nat.eqb (length (weights (batch_of ws))) (length (bids (batch_of ws))))
    with true
    by (unfold batch_of; cbn [wavs masks weights bids];
        now rewrite !length_map, !Nat.eqb_refl).
  cbn beta iota delta [bind py_assert].
  unfold AXES_NAME, clip_record. cbn [for_each].
  unfold axis_body. rewrite Htt.
  repeat (cbn [dict_get String.eqb Ascii.eqb Bool.eqb bind];
          rewrite weighted_preds_spec by auto).
  cbn [dict_get String.eqb Ascii.eqb Bool.eqb bind dict_set dict_keys dict_values
       map fst snd AXES_NAME].
  rewrite zip_star_columns, !map_map.
  reflexivity.
Qed.

End ForwardProperties.

Lemma accumulate_length {X V : Type} (body : X -> result V) (l : list X)
  (acc vs : list V) :
  for_each (fun acc x => v <- body x ;; Ok (acc ++ [v])) l acc = Ok vs ->
  length vs = (length acc + length l)%nat.
Proof.
  revert acc; induction l as [|x l IH]; intros acc; simpl.
  - intros H; inversion H; lia.
  - destruct (body x) as [v|]; simpl; [|discriminate].
    intros H; apply IH in H. rewrite H, length_app; simpl; lia.
Qed.

Lemma weighted_preds_length (preds ws : list Q) (ids : list nat) (bsz : nat)
  (vs : list tensor_item) :
  weighted_preds preds ws ids bsz = Ok vs -> length vs = bsz.
Proof.
  unfold weighted_preds; intros H.
  apply accumulate_length in H. now rewrite length_seq in H.
Qed.

Lemma list_as_map_nth {A : Type} (d : A) (l : list A) :
  l = map (fun i => nth i l d) (seq 0 (length l)).
Proof.
  apply nth_ext with (d := d) (d' := d).
  - now rewrite length_map, length_seq.
  - intros n Hn. symmetry.
    rewrite (nth_indep (map (fun i => nth i l d) (seq 0 (length l))) d
               ((fun i => nth i l d) 0%nat))
      by (rewrite length_map, length_seq; exact Hn).
    rewrite (map_nth (fun i => nth i l d)), seq_nth by exact Hn.
    reflexivity.
Qed.

Lemma zip_star_four {A : Type} (d : A) (c1 c2 c3 c4 : list A) (n : nat) :
  length c1 = n -> length c2 = n -> length c3 = n -> length c4 = n ->
  zip_star [c1; c2; c3; c4]
  = map (fun i => [nth i c1 d; nth i c2 d; nth i c3 d; nth i c4 d]) (seq 0 n).
Proof.
  intros E1 E2 E3 E4.
  pose proof (zip_star_columns (fun i => nth i c1 d) (fun i => nth i c2 d)
                (fun i => nth i c3 d) (fun i => nth i c4 d) (seq 0 n)) as Hz.
  replace (map (fun i => nth i c1 d) (seq 0 n)) with c1 in Hz
    by (rewrite <- E1; apply list_as_map_nth).
  replace (map (fun i => nth i c2 d) (seq 0 n)) with c2 in Hz
    by (rewrite <- E2; apply list_as_map_nth).
  replace (map (fun i => nth i c3 d) (seq 0 n)) with c3 in Hz
    by (rewrite <- E3; apply list_as_map_nth).
  replace (map (fun i => nth i c4 d) (seq 0 n)) with c4 in Hz
    by (rewrite <- E4; apply list_as_map_nth).
  exact Hz.
Qed.

(** Whenever [forward_versa] returns at all, whatever the predictor and
    the network, it returns one record per clip of the batch, each with the
    keys CE, CU, PC, PQ in that order. *)
Lemma forward_versa_shape (raw_audio : Type)
  (resample_mono : raw_audio -> Z -> Z -> list Q) (float_repr : Q -> string)
  (self : predictor) (batch : list (raw_audio * Z)) (rows : list string) :
  forward_versa raw_audio resample_mono float_repr self batch = Ok rows ->
  exists ce cu pc pq : list tensor_item,
    rows = map (fun i => json_dumps float_repr
                           [("CE", nth i ce NaN); ("CU", nth i cu NaN);
                            ("PC", nth i pc NaN); ("PQ", nth i pq NaN)]%string)
               (seq 0 (length batch)).
Proof.
  unfold forward_versa.
  destruct (make_inference_batch _ 10 10 (sample_rate self) true) as [b|];
    cbn [bind]; [|discriminate].
  destruct (torch_stack (wavs b)) as [wavs_t|]; cbn [bind]; [|discriminate].
  destruct (torch_stack (masks b)) as [masks_t|]; cbn [bind]; [|discriminate].
  destruct (py_assert _) as [[]|]; cbn [bind]; [|discriminate].
  unfold AXES_NAME; cbn [for_each]; unfold axis_body.
  destruct (dict_get (target_transform self) "CE") as [t1|]; cbn [bind]; [|discriminate].
  destruct (weighted_preds (inverse t1 _) _ _ _) as [ce|] eqn:E1; cbn [bind];
    [|discriminate].
  destruct (dict_get (target_transform self) "CU") as [t2|]; cbn [bind]; [|discriminate].
  destruct (weighted_preds (inverse t2 _) _ _ _) as [cu|] eqn:E2; cbn [bind];
    [|discriminate].
  destruct (dict_get (target_transform self) "PC") as [t3|]; cbn [bind]; [|discriminate].
  destruct (weighted_preds (inverse t3 _) _ _ _) as [pc|] eqn:E3; cbn [bind];
    [|discriminate].
  destruct (dict_get (target_transform self) "PQ") as [t4|]; cbn [bind]; [|discriminate].
  destruct (weighted_preds (inverse t4 _) _ _ _) as [pq|] eqn:E4; cbn [bind];
    [|discriminate].
  apply weighted_preds_length in E1, E2, E3, E4.
  intros H; injection H as <-.
  exists ce, cu, pc, pq.
  cbn [dict_set String.eqb Ascii.eqb Bool.eqb dict_keys dict_values map fst snd].
  change (zip_star_upto (length ce) [ce; cu; pc; pq])
    with (zip_star [ce; cu; pc; pq]).
  rewrite (zip_star_four NaN ce cu pc pq (length batch)) by assumption.
  rewrite !map_map. reflexivity.
Qed.

(** ** One record per clip *)

(** A batch without any window cannot be stacked: [forward_versa] ends in
    the [RuntimeError] of [torch.stack]. *)
Example forward_versa_only_empty_clips :
  forward_versa (list Q) demo_resample demo_float_repr demo_predictor [([], 16000)]
  = Raise RuntimeError /\
  forward_versa (list Q) demo_resample demo_float_repr demo_predictor []
  = Raise RuntimeError.
Proof. split; reflexivity. Qed.

(** Whenever [forward_versa] returns, it returns exactly one record per
    clip of the batch, each with the four keys CE, CU, PC and PQ; and it
    does return, the record at position [i] holding the scores of the
    windows cut from clip [i], for a predictor built by [__init__], a
    network giving one score per window, and a batch of one-dimensional
    arrays with at least one non-empty clip (so that there is something
    to stack). *)
Theorem forward_versa_records :
  (forall (raw_audio : Type) (resample_mono : raw_audio -> Z -> Z -> list Q)
          (float_repr : Q -> string) (self : predictor)
          (batch : list (raw_audio * Z)) (rows : list string),
      forward_versa raw_audio resample_mono float_repr self batch = Ok rows ->
      length rows = length batch /\
      forall i, (i < length batch)%nat ->
        exists ce cu pc pq,
          nth_error rows i =
            Some (json_dumps float_repr
                    [("CE", ce); ("CU", cu); ("PC", pc); ("PQ", pq)]%string)) /\
  (forall (raw_audio : Type) (resample_mono : raw_audio -> Z -> Z -> list Q)
          (float_repr : Q -> string) (ckpt : checkpoint) (pth prec : string)
          (bs : Z) (dev : string) (self : predictor) (batch : list (raw_audio * Z)),
      snd (init ckpt pth prec bs dev) = Ok self ->
      (forall ws ms axis, length (ckpt_model ckpt ws ms axis) = length ws) ->
      (exists item, In item batch /\ resample_mono (fst item) (snd item) 16000 <> []) ->
      exists b rows,
        make_inference_batch
          (audio_resample_mono_versa raw_audio resample_mono self batch)
          10 10 16000 true = Ok b /\
        forward_versa raw_audio resample_mono float_repr self batch = Ok rows /\
        length rows = length batch /\
        (forall i wav,
            nth_error (audio_resample_mono_versa raw_audio resample_mono self batch) i
            = Some wav ->
            filter (fun w => Nat.eqb (w_bid w) i) (batch_windows b)
            = clip_windows (10 * 16000) (10 * 16000) true (i, wav)) /\
        forall i, (i < length batch)%nat ->
          exists ce cu pc pq,
            nth_error rows i =
              Some (json_dumps float_repr
                      [("CE", ce); ("CU", cu); ("PC", pc); ("PQ", pq)]%string) /\
            axis_clip_score self b "CE" i = Ok ce /\
            axis_clip_score self b "CU" i = Ok cu /\
            axis_clip_score self b "PC" i = Ok pc /\
            axis_clip_score self b "PQ" i = Ok pq).
Proof.
  split.
  - intros raw_audio resample_mono float_repr self batch rows Hfw.
    apply forward_versa_shape in Hfw as (ce & cu & pc & pq & ->).
    split; [now rewrite length_map, length_seq|].
    intros i Hi. rewrite nth_error_map, nth_error_seq.
    destruct (Nat.ltb_spec i (length batch)); [|lia].
    do 4 eexists; reflexivity.
  - intros raw_audio resample_mono float_repr ckpt pth prec bs dev self batch
      Hinit Hmodel Hne.
    apply init_ok_inv in Hinit as (n1 & n2 & n3 & n4 & Hself).
    destruct (forward_versa_rows raw_audio resample_mono float_repr self batch n1 n2 n3 n4)
      as (b & Hb & Hfw); try (rewrite Hself; reflexivity); try assumption.
    { rewrite Hself; exact Hmodel. }
    rewrite Hself in Hb, Hfw |- *.
    exists b; eexists; split; [exact Hb|]. split; [exact Hfw|].
    split; [now rewrite length_map, length_seq|].
    split.
    { intros i wav Hi.
      pose proof (make_inference_batch_inv _ 10 10 16000 true b ltac:(lia) Hb) as Hv.
      rewrite Hv, batch_windows_of. unfold all_windows, enumerate.
      exact (windows_of_clip _ _ _ _ 0 i wav Hi). }
    intros i Hi.
    destruct (segmenter_weights _ 10 10 16000 true b ltac:(lia) Hb)
      as (Hlw & Hlwav & _ & _).
    rewrite nth_error_map, nth_error_seq.
    destruct (Nat.ltb_spec i (length batch)); [|lia].
    unfold clip_record, axis_clip_score, AXES_NAME.
    cbn [option_map Nat.add map target_transform model dict_get String.eqb
         Ascii.eqb Bool.eqb bind].
    do 4 eexists; split; [reflexivity|].
    assert (Hl : forall t axis,
               length (inverse t (ckpt_model ckpt (wavs b) (masks b) axis))
               = length (bids b))
      by (intros; unfold inverse; now rewrite length_map, Hmodel).
    rewrite !clip_score_spec by auto.
    repeat split.
Qed.

Lemma forward_versa_records_witness :
  exists b rows,
    make_inference_batch
      (audio_resample_mono_versa (list Q) demo_resample demo_predictor
         [([1%Q], 16000); ([], 16000)])
      10 10 16000 true = Ok b /\
    forward_versa (list Q) demo_resample demo_float_repr demo_predictor
      [([1%Q], 16000); ([], 16000)] = Ok rows /\
    length rows = length [([1%Q], 16000); (@nil Q, 16000)] /\
    (forall i wav,
        nth_error (audio_resample_mono_versa (list Q) demo_resample demo_predictor
                     [([1%Q], 16000); ([], 16000)]) i = Some wav ->
        filter (fun w => Nat.eqb (w_bid w) i) (batch_windows b)
        = clip_windows (10 * 16000) (10 * 16000) true (i, wav)) /\
    forall i, (i < length [([1%Q], 16000%Z); (@nil Q, 16000%Z)])%nat ->
      exists ce cu pc pq,
        nth_error rows i =
          Some (json_dumps demo_float_repr
                  [("CE", ce); ("CU", cu); ("PC", pc); ("PQ", pq)]%string) /\
        axis_clip_score demo_predictor b "CE" i = Ok ce /\
        axis_clip_score demo_predictor b "CU" i = Ok cu /\
        axis_clip_score demo_predictor b "PC" i = Ok pc /\
        axis_clip_score demo_predictor b "PQ" i = Ok pq.
Proof.
  apply (proj2 forward_versa_records (list Q) demo_resample demo_float_repr
           demo_ckpt "ckpt.pt" "bf16" 1 "cpu" demo_predictor
           [([1%Q], 16000); ([], 16000)])%string.
  - reflexivity.
  - intros ws ms axis; simpl; apply length_map.
  - exists ([1%Q], 16000); split; [simpl; auto | discriminate].
Defined.

(** ** [main_predict] *)

(** C8, on the code: [main_predict] emits no record for any input.  Its
    first statement builds the predictor with the keyword [data_col],
    which is no parameter of [__init__], so every call ends in
    [TypeError] before a clip is read; and the loop calls
    [predictor.forward], which the class does not define, so even with a
    predictor at hand the first chunk ends in [AttributeError].  The count
    check of line 250 is never reached. *)
Theorem main_predict_raises :
  (forall (json_value : Type) (json_loads : string -> result json_value)
          (loaded : checkpoint) (input_file : list string + list json_value)
          (ckpt : string) (batch_size : Z),
      main_predict json_value json_loads loaded input_file ckpt batch_size
      = Raise TypeError) /\
  (forall (A : Type) (self : predictor) (metadata : list A) (batch_size : Z),
      0 < batch_size -> metadata <> [] ->
      main_predict_loop A
        (fun chunk => forward <- predictor_forward A self ;; forward chunk)
        metadata batch_size
      = Raise AttributeError).
Proof.
  split.
  - intros; reflexivity.
  - intros A self metadata batch_size Hbs Hne; unfold main_predict_loop.
    rewrite py_range_list by lia. cbn [bind].
    assert (HL : 0 < Z.of_nat (length metadata))
      by (destruct metadata; [congruence | simpl; lia]).
    pose proof (range_list_nth (Z.of_nat (length metadata)) batch_size 0 Hbs
                  ltac:(simpl; lia)) as Hn.
    destruct (range_list 0 (Z.of_nat (length metadata)) batch_size) as [|ii rest];
      [discriminate|].
    reflexivity.
Qed.

Lemma main_predict_raises_witness :
  main_predict_loop nat
    (fun chunk => forward <- predictor_forward nat demo_predictor ;; forward chunk)
    [1%nat; 2%nat; 3%nat] 2
  = Raise AttributeError.
Proof.
  apply (proj2 main_predict_raises nat demo_predictor [1%nat; 2%nat; 3%nat] 2);
    [lia | discriminate].
Defined.

(** ** Precision fallback *)

Lemma precision_lookup_fails (prec : string) :
  prec <> "16"%string -> prec <> "bf16"%string ->
  dict_get precision_table prec = Raise KeyError.
Proof.
  intros H1 H2; unfold precision_table; cbn [dict_get].
  destruct (String.eqb_spec "16" prec) as [E|_]; [congruence|].
  destruct (String.eqb_spec "bf16" prec) as [E|_]; [congruence|].
  reflexivity.
Qed.

(** For every unsupported precision [__init__] logs the warning that
    float32 is used, and [setup_model] then leaves [dtype] at [None]. *)
Lemma init_unsupported_precision (ckpt : checkpoint) (pth prec : string) (bs : Z)
  (dev : string) :
  prec <> "16"%string -> prec <> "bf16"%string ->
  fst (init ckpt pth prec bs dev) =
    [(WARNING, "Precision " ++ prec ++ " is not supported, using float32 instead.");
     (INFO, "Setting up Aesthetic model on " ++ dev)]%string /\
  snd (init ckpt pth prec bs dev) =
    (tr <- build_target_transform ckpt ;;
     Ok (mk_predictor pth prec bs 16000 dev None (ckpt_model ckpt) tr)).
Proof.
  intros H1 H2; unfold init, setup_model, dict_get_default, dict_get_none; simpl a_precision.
  rewrite (precision_lookup_fails prec H1 H2). split; reflexivity.
Qed.

(** C9, on the code: with the unsupported precision ["32"], [__init__]
    logs the warning announcing float32 and raises nothing on account of
    the precision, but the predictor it returns does not carry float32:
    [setup_model] looks the precision up again without a default and
    resets [dtype] to [None]. *)
Theorem unsupported_precision_resets_dtype (ckpt : checkpoint) (pth : string)
  (bs : Z) (dev : string) :
  fst (init ckpt pth "32" bs dev) =
    [(WARNING, "Precision 32 is not supported, using float32 instead.");
     (INFO, "Setting up Aesthetic model on " ++ dev)]%string /\
  snd (init ckpt pth "32" bs dev) =
    (tr <- build_target_transform ckpt ;;
     Ok (mk_predictor pth "32" bs 16000 dev None (ckpt_model ckpt) tr)) /\
  (exists self,
     snd (init demo_ckpt "ckpt.pt" "32" 1 "cpu") = Ok self /\
     dtype self = None /\ dtype self <> Some float32).
Proof.
  destruct (init_unsupported_precision ckpt pth "32" bs dev) as [Hl Hr];
    [discriminate | discriminate |].
  split; [exact Hl|]. split; [exact Hr|].
  eexists; split; [reflexivity|]. split; [reflexivity | discriminate].
Qed.

(** * Further properties of the segmenter *)

Lemma for_each_invariant {S X : Type} (P : S -> Prop) (body : S -> X -> result S)
  (xs : list X) (s s' : S) :
  (forall s x s', P s -> body s x = Ok s' -> P s') ->
  P s -> for_each body xs s = Ok s' -> P s'.
Proof.
  intros Hstep; revert s; induction xs as [|x xs IH]; intros s Hs H; simpl in H.
  - inversion H; subst; exact Hs.
  - destruct (body s x) as [s1|] eqn:E; simpl in H; [|discriminate].
    eapply IH; [eapply Hstep; eassumption | exact H].
Qed.

(** The four lists [make_inference_batch] returns always have one length,
    whatever the parameters: every window appends one entry to each. *)
Theorem batch_lists_parallel (input_wavs : list (list Q))
  (hop_size window_size sample_rate : Z) (pad_zero : bool) (b : batch_lists) :
  make_inference_batch input_wavs hop_size window_size sample_rate pad_zero = Ok b ->
  length (wavs b) = length (bids b) /\
  length (masks b) = length (bids b) /\
  length (weights b) = length (bids b).
Proof.
  unfold make_inference_batch.
  apply (for_each_invariant parallel); [|repeat split].
  intros acc [bid wav] acc' Hacc; unfold clip_body.
  destruct (py_range 0 (Z.of_nat (length wav)) (hop_size * sample_rate)) as [starts|];
    simpl; [|discriminate].
  apply (for_each_invariant parallel); [|exact Hacc].
  clear; intros acc ii acc' (H1 & H2 & H3); unfold window_body.
  destruct (py_true_div _ _); simpl; [|discriminate].
  intros H; inversion H; unfold parallel; simpl.
  rewrite !length_app; simpl. lia.
Qed.

Lemma batch_lists_parallel_witness :
  length [[1; 2; 3]; [3; 4; 5]; [5; 0; 0]]%Q = length [0; 0; 0]%nat /\
  length [[true; true; true]; [true; true; true]; [true; false; false]]
  = length [0; 0; 0]%nat /\
  length [3 # 3; 3 # 3; 1 # 3]%Q = length [0; 0; 0]%nat.
Proof.
  apply (batch_lists_parallel [[1; 2; 3; 4; 5]%Q] 2 3 1 true
           (mk_batch [[1; 2; 3]; [3; 4; 5]; [5; 0; 0]]%Q
              [[true; true; true]; [true; true; true]; [true; false; false]]
              [3 # 3; 3 # 3; 1 # 3] [0; 0; 0]%nat)).
  reflexivity.
Defined.

(** A hop of zero samples makes [range] raise [ValueError] as soon as
    there is a clip, empty or not; only the empty list of clips passes. *)
Theorem zero_hop_raises (input_wavs : list (list Q))
  (hop_size window_size sample_rate : Z) (pad_zero : bool) :
  hop_size * sample_rate = 0 ->
  (input_wavs = [] ->
   make_inference_batch input_wavs hop_size window_size sample_rate pad_zero
   = Ok empty_batch) /\
  (input_wavs <> [] ->
   make_inference_batch input_wavs hop_size window_size sample_rate pad_zero
   = Raise ValueError).
Proof.
  intros Ho; split.
  - intros ->; reflexivity.
  - destruct input_wavs as [|x l]; [congruence|]; intros _.
    now apply make_inference_batch_zero_hop.
Qed.

Lemma zero_hop_raises_witness :
  (([[]] : list (list Q)) = [] ->
   make_inference_batch [[]] 0 10 16000 true = Ok empty_batch) /\
  (([[]] : list (list Q)) <> [] ->
   make_inference_batch [[]] 0 10 16000 true = Raise ValueError).
Proof.
  apply (zero_hop_raises [[]] 0 10 16000 true). reflexivity.
Defined.

Lemma clips_no_window (offset winlen : Z) (pad_zero : bool)
  (items : list (nat * list Q)) (acc : batch_lists) :
  offset <> 0 ->
  (forall item, In item items ->
     range_list 0 (Z.of_nat (length (snd item))) offset = []) ->
  for_each (clip_body offset winlen pad_zero) items acc = Ok acc.
Proof.
  intros Ho; induction items as [|[bid wav] items IH]; intros H; simpl; [reflexivity|].
  rewrite py_range_list by assumption; simpl.
  pose proof (H (bid, wav) (or_introl eq_refl)) as Hr; simpl in Hr.
  rewrite Hr; simpl.
  apply IH; intros; apply H; now right.
Qed.

(** With a negative hop the segmenter builds no window at all, for any
    clips and any window length, and raises nothing. *)
Theorem negative_hop_no_windows (input_wavs : list (list Q))
  (hop_size window_size sample_rate : Z) (pad_zero : bool) :
  hop_size * sample_rate < 0 ->
  make_inference_batch input_wavs hop_size window_size sample_rate pad_zero
  = Ok empty_batch.
Proof.
  intros Ho; unfold make_inference_batch.
  apply clips_no_window; [lia|].
  intros item _; unfold range_list.
  rewrite range_len_nonpos_step by lia. reflexivity.
Qed.

Lemma negative_hop_no_windows_witness :
  make_inference_batch [[1; 2; 3]%Q] (-1) 2 1 true = Ok empty_batch.
Proof.
  apply (negative_hop_no_windows [[1; 2; 3]%Q] (-1) 2 1 true). lia.
Defined.

Lemma range_list_head (L step : Z) :
  0 < L -> 0 < step -> exists rest, range_list 0 L step = 0 :: rest.
Proof.
  intros HL Hs.
  pose proof (range_list_nth L step 0 Hs ltac:(simpl; lia)) as Hn.
  destruct (range_list 0 L step) as [|x rest]; [discriminate|].
  simpl in Hn; inversion Hn; subst. now exists rest.
Qed.

Lemma clips_zero_window (offset : Z) (pad_zero : bool)
  (items : list (nat * list Q)) (acc : batch_lists) :
  0 < offset ->
  (exists item, In item items /\ snd item <> []) ->
  for_each (clip_body offset 0 pad_zero) items acc = Raise ZeroDivisionError.
Proof.
  intros Ho; revert acc; induction items as [|[bid wav] items IH];
    intros acc (item & Hin & Hne); [contradiction|].
  simpl. rewrite py_range_list by lia; simpl.
  destruct wav as [|x wav].
  - unfold range_list; rewrite range_len_empty; simpl.
    apply IH. destruct Hin as [<-|Hin]; [now simpl in Hne | eauto].
  - destruct (range_list_head (Z.of_nat (length (x :: wav))) offset) as (rest & ->);
      [simpl; lia | assumption |].
    reflexivity.
Qed.

(** A window length of zero samples makes the weight computation of the
    first window raise [ZeroDivisionError], as soon as one clip is not
    empty (for a positive hop). *)
Theorem zero_window_raises (input_wavs : list (list Q))
  (hop_size window_size sample_rate : Z) (pad_zero : bool) (wav : list Q) :
  0 < hop_size * sample_rate ->
  window_size * sample_rate = 0 ->
  In wav input_wavs -> wav <> [] ->
  make_inference_batch input_wavs hop_size window_size sample_rate pad_zero
  = Raise ZeroDivisionError.
Proof.
  intros Ho Hw Hin Hne; unfold make_inference_batch; rewrite Hw.
  apply clips_zero_window; [assumption|].
  apply In_nth_error in Hin as (i & Hi).
  exists (i, wav); split; [now apply enumerate_In | assumption].
Qed.

Lemma zero_window_raises_witness :
  make_inference_batch [[]; [1; 2]%Q] 10 0 16000 true = Raise ZeroDivisionError.
Proof.
  apply (zero_window_raises [[]; [1; 2]%Q] 10 0 16000 true [1; 2]%Q);
    [lia | reflexivity | simpl; auto | discriminate].
Defined.

(** With zero-padding, every window has exactly [winlen] samples and mask
    entries: the real samples come first and are flagged [True], the rest
    is padding, zero and flagged [False]. *)
Theorem padded_window_layout (input_wavs : list (list Q))
  (hop_size window_size sample_rate : Z) (b : batch_lists) (w : window) :
  0 < window_size * sample_rate ->
  make_inference_batch input_wavs hop_size window_size sample_rate true = Ok b ->
  In w (batch_windows b) ->
  Z.of_nat (length (w_samples w)) = window_size * sample_rate /\
  Z.of_nat (length (w_mask w)) = window_size * sample_rate /\
  0 < real_samples w <= window_size * sample_rate /\
  forall p : nat,
    (Z.of_nat p < real_samples w -> nth_error (w_mask w) p = Some true) /\
    (real_samples w <= Z.of_nat p < window_size * sample_rate ->
     nth_error (w_mask w) p = Some false /\ nth_error (w_samples w) p = Some 0%Q).
Proof.
  intros Hw Hb Hin.
  apply make_inference_batch_inv in Hb; [|lia]. subst b.
  rewrite batch_windows_of in Hin.
  apply all_windows_closed in Hin as (bid & wav & ii & _ & Hii & ->); [|assumption].
  set (winlen := window_size * sample_rate) in *.
  destruct (make_window_padded_lengths winlen bid wav ii Hii Hw) as [Hs Hm].
  rewrite make_window_real_samples by assumption.
  set (n := Z.min winlen (Z.of_nat (length wav) - ii)).
  assert (Hn : 0 < n <= winlen) by (unfold n; lia).
  split; [lia|]. split; [lia|]. split; [lia|].
  assert (Hreal : length (firstn (Z.to_nat winlen) (skipn (Z.to_nat ii) wav))
                  = Z.to_nat n) by (rewrite firstn_skipn_length; unfold n; lia).
  intros p; unfold make_window; fold n; simpl; split.
  - intros Hp. rewrite nth_error_app1 by (rewrite repeat_length; lia).
    apply nth_error_repeat; lia.
  - intros Hp; split.
    + rewrite nth_error_app2 by (rewrite repeat_length; lia).
      apply nth_error_repeat; rewrite repeat_length; lia.
    + rewrite nth_error_app2 by (rewrite Hreal; lia).
      apply nth_error_repeat; rewrite Hreal; lia.
Qed.

Lemma padded_window_layout_witness :
  Z.of_nat (length [5; 0; 0]%Q) = 3 * 1 /\
  Z.of_nat (length [true; false; false]) = 3 * 1 /\
  0 < real_samples (mk_window [5; 0; 0]%Q [true; false; false] (1 # 3) 0) <= 3 * 1 /\
  forall p : nat,
    (Z.of_nat p < real_samples (mk_window [5; 0; 0]%Q [true; false; false] (1 # 3) 0) ->
     nth_error [true; false; false] p = Some true) /\
    (real_samples (mk_window [5; 0; 0]%Q [true; false; false] (1 # 3) 0)
       <= Z.of_nat p < 3 * 1 ->
     nth_error [true; false; false] p = Some false /\
     nth_error [5; 0; 0]%Q p = Some 0%Q).
Proof.
  apply (padded_window_layout [[1; 2; 3; 4; 5]%Q] 2 3 1
           (mk_batch [[1; 2; 3]; [3; 4; 5]; [5; 0; 0]]%Q
              [[true; true; true]; [true; true; true]; [true; false; false]]
              [3 # 3; 3 # 3; 1 # 3] [0; 0; 0]%nat)
           (mk_window [5; 0; 0]%Q [true; false; false] (1 # 3) 0)).
  - lia.
  - reflexivity.
  - simpl; right; right; left; reflexivity.
Defined.

Lemma StronglySorted_app (l1 l2 : list nat) :
  StronglySorted le l1 -> StronglySorted le l2 ->
  (forall x y, In x l1 -> In y l2 -> (x <= y)%nat) ->
  StronglySorted le (l1 ++ l2).
Proof.
  induction l1 as [|a l1 IH]; intros H1 H2 H; simpl; [exact H2|].
  inversion H1; subst. constructor.
  - apply IH; auto. intros; apply H; [now right | assumption].
  - apply Forall_app; split; [assumption|].
    apply Forall_forall; intros y Hy; apply H; [now left | exact Hy].
Qed.

Lemma StronglySorted_repeat (x : nat) (l : list nat) :
  (forall y, In y l -> y = x) -> StronglySorted le l.
Proof.
  induction l as [|a l IH]; intros H; constructor.
  - apply IH; intros; apply H; now right.
  - apply Forall_forall; intros y Hy.
    rewrite (H a) by (now left). rewrite (H y) by (now right). lia.
Qed.

Lemma clip_ids_sorted_from (offset winlen : Z) (pad_zero : bool)
  (l : list (list Q)) (s : nat) :
  StronglySorted le
    (map w_bid (flat_map (clip_windows offset winlen pad_zero)
                         (combine (seq s (length l)) l))).
Proof.
  revert s; induction l as [|x l IH]; intros s; simpl; [constructor|].
  rewrite map_app. apply StronglySorted_app.
  - apply (StronglySorted_repeat s). unfold clip_windows; simpl.
    intros y Hy. apply in_map_iff in Hy as (w & <- & Hw).
    apply in_map_iff in Hw as (ii & <- & _). reflexivity.
  - apply IH.
  - intros a c Ha Hc.
    unfold clip_windows in Ha; simpl in Ha.
    apply in_map_iff in Ha as (w & <- & Hw).
    apply in_map_iff in Hw as (ii & <- & _). simpl.
    apply in_map_iff in Hc as (w & <- & Hw).
    apply windows_from_bid in Hw. lia.
Qed.

(** The clip ids of the batch are non-decreasing and below the number of
    clips: the windows of a clip sit together, clip after clip. *)
Theorem clip_ids_sorted (input_wavs : list (list Q))
  (hop_size window_size sample_rate : Z) (pad_zero : bool) (b : batch_lists) :
  window_size * sample_rate <> 0 ->
  make_inference_batch input_wavs hop_size window_size sample_rate pad_zero = Ok b ->
  StronglySorted le (bids b) /\
  forall bid, In bid (bids b) -> (bid < length input_wavs)%nat.
Proof.
  intros Hw Hb. apply make_inference_batch_inv in Hb; [|assumption]. subst b; simpl.
  split; [apply clip_ids_sorted_from|].
  intros bid Hin. apply in_map_iff in Hin as (w & <- & Hin).
  apply all_windows_In in Hin as (i & wav & ii & Hn & _ & ->). simpl.
  apply nth_error_Some; congruence.
Qed.

Lemma clip_ids_sorted_witness :
  StronglySorted le [0; 0; 0; 2]%nat /\
  forall bid, In bid [0; 0; 0; 2]%nat ->
              (bid < length [[1; 2; 3; 4; 5]%Q; []; [7%Q]])%nat.
Proof.
  apply (clip_ids_sorted [[1; 2; 3; 4; 5]%Q; []; [7%Q]] 2 3 1 true
           (mk_batch [[1; 2; 3]; [3; 4; 5]; [5; 0; 0]; [7; 0; 0]]%Q
              [[true; true; true]; [true; true; true]; [true; false; false];
               [true; false; false]]
              [3 # 3; 3 # 3; 1 # 3; 1 # 3] [0; 0; 0; 2]%nat)).
  - lia.
  - reflexivity.
Defined.

Lemma clip_windows_shift (offset winlen : Z) (pad_zero : bool) (k : nat)
  (l : list (list Q)) (s : nat) :
  flat_map (clip_windows offset winlen pad_zero) (combine (seq (k + s) (length l)) l)
  = map (shift_bid k)
        (flat_map (clip_windows offset winlen pad_zero) (combine (seq s (length l)) l)).
Proof.
  revert s; induction l as [|x l IH]; intros s; simpl; [reflexivity|].
  rewrite map_app. f_equal.
  - unfold clip_windows; simpl. rewrite map_map. reflexivity.
  - replace (S (k + s)) with (k + S s)%nat by lia. apply IH.
Qed.

Lemma combine_append {A B : Type} (l1 l2 : list A) (m1 m2 : list B) :
  length l1 = length m1 ->
  combine (l1 ++ l2) (m1 ++ m2) = combine l1 m1 ++ combine l2 m2.
Proof.
  revert m1; induction l1 as [|a l1 IH]; intros [|b m1] H; simpl in *;
    try discriminate; [reflexivity|].
  f_equal. apply IH. lia.
Qed.

Lemma enumerate_app {A : Type} (xs ys : list A) :
  enumerate (xs ++ ys) = enumerate xs ++ combine (seq (length xs) (length ys)) ys.
Proof.
  unfold enumerate. rewrite length_app, seq_app, combine_append; [reflexivity|].
  now rewrite length_seq.
Qed.

(** Batches compose: the batch of [xs ++ ys] is the batch of [xs] followed
    by the batch of [ys], whose clip ids are moved up by the number of
    clips in [xs]; windows, masks and weights do not depend on the
    neighbours of a clip. *)
Theorem batch_of_concatenation (xs ys : list (list Q))
  (hop_size window_size sample_rate : Z) (pad_zero : bool) :
  hop_size * sample_rate <> 0 ->
  window_size * sample_rate <> 0 ->
  exists bx bys,
    make_inference_batch xs hop_size window_size sample_rate pad_zero = Ok bx /\
    make_inference_batch ys hop_size window_size sample_rate pad_zero = Ok bys /\
    make_inference_batch (xs ++ ys) hop_size window_size sample_rate pad_zero
    = Ok (mk_batch (wavs bx ++ wavs bys) (masks bx ++ masks bys)
            (weights bx ++ weights bys)
            (bids bx ++ map (fun bid => (length xs + bid)%nat) (bids bys))).
Proof.
  intros Ho Hw. rewrite !make_inference_batch_windows by assumption.
  do 2 eexists; split; [reflexivity|]. split; [reflexivity|].
  f_equal. unfold all_windows at 1. rewrite enumerate_app, flat_map_app.
  replace (length xs) with (length xs + 0)%nat at 1 by lia.
  rewrite clip_windows_shift.
  fold (enumerate ys).
  fold (all_windows (hop_size * sample_rate) (window_size * sample_rate) pad_zero xs).
  fold (all_windows (hop_size * sample_rate) (window_size * sample_rate) pad_zero ys).
  unfold batch_of; simpl. rewrite !map_app, !map_map. reflexivity.
Qed.

Lemma batch_of_concatenation_witness :
  exists bx bys,
    make_inference_batch [[1; 2; 3]%Q] 2 2 1 true = Ok bx /\
    make_inference_batch [[7%Q]] 2 2 1 true = Ok bys /\
    make_inference_batch ([[1; 2; 3]%Q] ++ [[7%Q]]) 2 2 1 true
    = Ok (mk_batch (wavs bx ++ wavs bys) (masks bx ++ masks bys)
            (weights bx ++ weights bys)
            (bids bx ++ map (fun bid => (length [[1; 2; 3]%Q] + bid)%nat) (bids bys))).
Proof.
  apply (batch_of_concatenation [[1; 2; 3]%Q] [[7%Q]] 2 2 1 true); lia.
Defined.

Lemma fold_add_start (l : list Z) (a : Z) :
  fold_right Z.add a l = fold_right Z.add 0 l + a.
Proof.
  induction l as [|x l IH]; simpl; [lia | rewrite IH; lia].
Qed.

Lemma real_lengths_sum (L W : Z) (m : nat) :
  0 < W -> (Z.of_nat m - 1) * W < L -> 0 <= L ->
  fold_right Z.add 0
    (map (fun k => Z.min W (L - (0 + Z.of_nat k * W))) (seq 0 m))
  = Z.min (Z.of_nat m * W) L.
Proof.
  intros HW; induction m as [|m IH]; intros Hm HL; [simpl; lia|].
  rewrite seq_S, map_app, fold_right_app, fold_add_start, IH by nia.
  cbn [map fold_right Nat.add]. nia.
Qed.

(** When hop and window are equal (the windows do not overlap), the
    numbers of real samples of the windows of a clip, read off their
    masks, add up to the length of the clip: every sample of the clip is
    counted in exactly one window.  The statement is on integers, so no
    rounding of the weights is involved. *)
Theorem clip_real_samples_sum_to_length (input_wavs : list (list Q))
  (hop_size window_size sample_rate : Z) (pad_zero : bool) (b : batch_lists)
  (bii : nat) (wav : list Q) :
  0 < window_size * sample_rate ->
  hop_size * sample_rate = window_size * sample_rate ->
  make_inference_batch input_wavs hop_size window_size sample_rate pad_zero = Ok b ->
  nth_error input_wavs bii = Some wav ->
  fold_right Z.add 0
    (map real_samples (filter (fun w => Nat.eqb (w_bid w) bii) (batch_windows b)))
  = Z.of_nat (length wav).
Proof.
  intros Hw Ho Hb Hn.
  assert (Hw0 : window_size * sample_rate <> 0) by lia.
  pose proof (make_inference_batch_inv _ _ _ _ _ _ Hw0 Hb) as Hv.
  rewrite Ho in Hv. set (W := window_size * sample_rate) in *.
  rewrite Hv, batch_windows_of. unfold all_windows, enumerate.
  pose proof (windows_of_clip W W pad_zero input_wavs 0 bii wav Hn) as Hc.
  simpl in Hc; rewrite Hc; clear Hc.
  unfold clip_windows; cbn [fst snd]. rewrite map_map.
  set (L := Z.of_nat (length wav)).
  rewrite (map_ext_in _ (fun ii => Z.min W (L - ii))).
  2:{ intros ii Hii. apply range_list_In in Hii as (k & _ & Hr & _); [|lia].
      rewrite window_at_closed by assumption.
      now apply make_window_real_samples. }
  unfold range_list. rewrite map_map.
  destruct (Z_lt_le_dec 0 L) as [HL|HL].
  - pose proof (ceil_div_spec L W Hw) as Hcd.
    rewrite real_lengths_sum; rewrite ?range_len_ceil by assumption;
      try rewrite Z2Nat.id by nia; nia.
  - assert (L = 0) by (unfold L in *; lia).
    replace L with 0 by lia. rewrite range_len_empty. reflexivity.
Qed.

Lemma clip_real_samples_sum_to_length_witness :
  fold_right Z.add 0
    (map real_samples
       (filter (fun w => Nat.eqb (w_bid w) 0)
          (batch_windows
             (mk_batch [[1; 2]; [3; 4]; [5; 0]]%Q
                [[true; true]; [true; true]; [true; false]]
                [2 # 2; 2 # 2; 1 # 2] [0; 0; 0]%nat))))
  = Z.of_nat (length [1; 2; 3; 4; 5]%Q).
Proof.
  apply (clip_real_samples_sum_to_length [[1; 2; 3; 4; 5]%Q] 2 2 1 true
           (mk_batch [[1; 2]; [3; 4]; [5; 0]]%Q
              [[true; true]; [true; true]; [true; false]]
              [2 # 2; 2 # 2; 1 # 2] [0; 0; 0]%nat) 0 [1; 2; 3; 4; 5]%Q).
  - lia.
  - reflexivity.
  - reflexivity.
  - reflexivity.
Defined.

(** * Further properties of the predictor *)

Lemma flat_map_nothing {A B : Type} (f : A -> list B) (l : list A) :
  (forall x, In x l -> f x = []) -> flat_map f l = [].
Proof.
  induction l as [|x l IH]; intros H; simpl; [reflexivity|].
  rewrite (H x) by (now left). apply IH; intros; apply H; now right.
Qed.

Lemma all_windows_of_empty_clips (offset winlen : Z) (pad_zero : bool)
  (input_wavs : list (list Q)) :
  (forall wav, In wav input_wavs -> wav = []) ->
  all_windows offset winlen pad_zero input_wavs = [].
Proof.
  intros H; unfold all_windows. apply flat_map_nothing.
  intros [bid wav] Hin. apply enumerate_In in Hin. apply nth_error_In in Hin.
  rewrite (H wav Hin). unfold clip_windows, range_list; simpl.
  now rewrite range_len_empty.
Qed.

(** A batch in which no clip has a sample (in particular the empty batch)
    yields no window, and [forward_versa] stops in [torch.stack] with a
    [RuntimeError] before the network is called. *)
Theorem forward_versa_nothing_to_stack (raw_audio : Type)
  (resample_mono : raw_audio -> Z -> Z -> list Q) (float_repr : Q -> string)
  (self : predictor) (batch : list (raw_audio * Z)) :
  sample_rate self <> 0 ->
  (forall item, In item batch ->
     resample_mono (fst item) (snd item) (sample_rate self) = []) ->
  forward_versa raw_audio resample_mono float_repr self batch = Raise RuntimeError.
Proof.
  intros Hsr Hempty; unfold forward_versa.
  rewrite make_inference_batch_windows by lia.
  rewrite all_windows_of_empty_clips; [reflexivity|].
  intros wav Hin. unfold audio_resample_mono_versa in Hin.
  apply in_map_iff in Hin as (item & <- & Hitem). now apply Hempty.
Qed.

Lemma forward_versa_nothing_to_stack_witness :
  forward_versa (list Q) demo_resample demo_float_repr demo_predictor
    [([], 16000); ([], 8000)] = Raise RuntimeError.
Proof.
  apply (forward_versa_nothing_to_stack (list Q) demo_resample demo_float_repr
           demo_predictor [([], 16000); ([], 8000)]).
  - simpl; lia.
  - intros item [<-|[<-|[]]]; reflexivity.
Defined.

(** A network that returns, for the first axis, a number of scores that
    differs from the number of windows makes [forward_versa] raise
    [IndexError] at the first clip: the boolean mask over the clip ids does
    not fit the predictions. *)
Theorem forward_versa_backend_mismatch (raw_audio : Type)
  (resample_mono : raw_audio -> Z -> Z -> list Q) (float_repr : Q -> string)
  (self : predictor) (batch : list (raw_audio * Z)) (t : Normalize) :
  sample_rate self = 16000 ->
  dict_get (target_transform self) "CE"%string = Ok t ->
  (exists item, In item batch /\ resample_mono (fst item) (snd item) 16000 <> []) ->
  (forall ws ms, ws <> [] -> length (model self ws ms "CE"%string) <> length ws) ->
  forward_versa raw_audio resample_mono float_repr self batch = Raise IndexError.
Proof.
  intros Hsr Ht (item & Hitem & Hitemne) Hlen; unfold forward_versa.
  rewrite Hsr.
  set (wavs0 := audio_resample_mono_versa raw_audio resample_mono self batch).
  rewrite make_inference_batch_windows by lia.
  set (ws := all_windows (10 * 16000) (10 * 16000) true wavs0).
  assert (Hws : ws <> []).
  { apply all_windows_nonempty with (wav := resample_mono (fst item) (snd item) 16000);
      [lia | | assumption].
    unfold wavs0, audio_resample_mono_versa; rewrite Hsr.
    apply in_map_iff; exists item; auto. }
  assert (Hshape : forall w, In w ws ->
            length (w_samples w) = Z.to_nat (10 * 16000) /\
            length (w_mask w) = Z.to_nat (10 * 16000)).
  { intros w Hw. apply all_windows_closed in Hw as (bid & wav & ii & _ & Hii & ->);
      [|lia].
    apply make_window_padded_lengths; [assumption | lia]. }
  clearbody ws.
  cbn beta iota delta [bind].
  rewrite (torch_stack_ok (wavs (batch_of ws)) (Z.to_nat (10 * 16000))).
  2:{ unfold batch_of; cbn [wavs]. intros H; apply map_eq_nil in H; contradiction. }
  2:{ unfold batch_of; cbn [wavs]. intros u Hu.
      apply in_map_iff in Hu as (w & <- & Hw). now apply Hshape. }
  cbn beta iota delta [bind].
  rewrite (torch_stack_ok (masks (batch_of ws)) (Z.to_nat (10 * 16000))).
  2:{ unfold batch_of; cbn [masks]. intros H; apply map_eq_nil in H; contradiction. }
  2:{ unfold batch_of; cbn [masks]. intros u Hu.
      apply in_map_iff in Hu as (w & <- & Hw). now apply Hshape. }
  cbn beta iota delta [bind].
  replace (Nat.eqb (length (wavs (batch_of ws))) (length (masks (batch_of ws)))
           && Nat.eqb (length (masks (batch_of ws))) (length (weights (batch_of ws)))
           && Nat.eqb (length (weights (batch_of ws))) (length (bids (batch_of ws))))
    with true
    by (unfold batch_of; cbn [wavs masks weights bids];
        now rewrite !length_map, !Nat.eqb_refl).
  cbn beta iota delta [bind py_assert].
  unfold AXES_NAME; cbn [for_each]. unfold axis_body at 1.
  rewrite Ht; cbn [bind].
  destruct batch as [|item0 batch]; [contradiction|].
  unfold weighted_preds; cbn [length seq for_each]. unfold clip_score at 1.
  rewrite mask_index_select
    by (unfold batch_of; cbn [weights bids]; now rewrite !length_map).
  cbn [bind].
  rewrite mask_index_mismatch; [reflexivity|].
  unfold inverse; rewrite length_map.
  intros Heq. apply (Hlen (wavs (batch_of ws)) (masks (batch_of ws))).
  - unfold batch_of; cbn [wavs]. intros H; apply map_eq_nil in H; contradiction.
  - rewrite Heq. unfold batch_of; cbn [wavs bids]. now rewrite !length_map.
Qed.

Lemma forward_versa_backend_mismatch_witness :
  forward_versa (list Q) demo_resample demo_float_repr
    (mk_predictor "ckpt.pt"%string "bf16"%string 1 16000 "cpu"%string (Some bfloat16)
       (fun _ _ _ => []) (target_transform demo_predictor))
    [([1%Q], 16000)] = Raise IndexError.
Proof.
  apply (forward_versa_backend_mismatch (list Q) demo_resample demo_float_repr
           (mk_predictor "ckpt.pt"%string "bf16"%string 1 16000 "cpu"%string
              (Some bfloat16) (fun _ _ _ => []) (target_transform demo_predictor))
           [([1%Q], 16000)] (mk_Normalize 1 2)).
  - reflexivity.
  - reflexivity.
  - exists ([1%Q], 16000); split; [simpl; auto | discriminate].
  - intros ws ms Hne; simpl. destruct ws; [congruence | discriminate].
Defined.

Local Open Scope string_scope.

Lemma init_logs (ckpt : checkpoint) (pth prec : string) (bs : Z) (dev : string) :
  fst (init ckpt pth prec bs dev) =
  List.app
    (if String.eqb "16" prec || String.eqb "bf16" prec then []
     else [(WARNING,
            "Precision " ++ prec ++ " is not supported, using float32 instead.")])
    [(INFO, "Setting up Aesthetic model on " ++ dev)].
Proof.
  unfold init, setup_model, dict_get_default, precision_table; cbn [dict_get a_device fst].
  destruct (String.eqb "16" prec); [reflexivity|].
  destruct (String.eqb "bf16" prec); reflexivity.
Qed.

(** [__init__] logs a warning exactly for the precisions other than "16"
    and "bf16"; a predictor it returns keeps the precision string and has
    float16 for "16", bfloat16 for "bf16" and no dtype otherwise. *)
Theorem init_precision (ckpt : checkpoint) (pth prec : string) (bs : Z)
  (dev : string) :
  ((exists msg, In (WARNING, msg) (fst (init ckpt pth prec bs dev))) <->
   (prec <> "16" /\ prec <> "bf16")) /\
  (forall self, snd (init ckpt pth prec bs dev) = Ok self ->
     precision self = prec /\
     dtype self = (if String.eqb prec "16" then Some float16
                   else if String.eqb prec "bf16" then Some bfloat16
                   else None)).
Proof.
  split.
  - rewrite init_logs.
    destruct (String.eqb_spec "16" prec) as [E1|E1];
      [|destruct (String.eqb_spec "bf16" prec) as [E2|E2]]; cbn [orb app].
    + split; [intros (msg & [H|[]]); discriminate | intros [H _]; congruence].
    + split; [intros (msg & [H|[]]); discriminate | intros [_ H]; congruence].
    + split; [intros _; split; congruence | intros _; eexists; left; reflexivity].
  - intros self Hself. apply init_ok_inv in Hself as (n1 & n2 & n3 & n4 & ->).
    cbn [precision dtype]. split; [reflexivity|].
    unfold dict_get_none, precision_table; cbn [dict_get].
    rewrite (String.eqb_sym prec "16"), (String.eqb_sym prec "bf16").
    destruct (String.eqb "16" prec); [reflexivity|].
    destruct (String.eqb "bf16" prec); reflexivity.
Qed.

Lemma build_target_transform_spec (ckpt : checkpoint) :
  build_target_transform ckpt =
  (ce <- dict_get (ckpt_target_transform ckpt) "CE" ;;
   cu <- dict_get (ckpt_target_transform ckpt) "CU" ;;
   pc <- dict_get (ckpt_target_transform ckpt) "PC" ;;
   pq <- dict_get (ckpt_target_transform ckpt) "PQ" ;;
   Ok [("CE", mk_Normalize (fst ce) (snd ce)); ("CU", mk_Normalize (fst cu) (snd cu));
       ("PC", mk_Normalize (fst pc) (snd pc)); ("PQ", mk_Normalize (fst pq) (snd pq))]).
Proof.
  unfold build_target_transform, AXES_NAME; cbn [for_each].
  destruct (dict_get (ckpt_target_transform ckpt) "CE"); cbn [bind]; [|reflexivity].
  destruct (dict_get (ckpt_target_transform ckpt) "CU"); cbn [bind]; [|reflexivity].
  destruct (dict_get (ckpt_target_transform ckpt) "PC"); cbn [bind]; [|reflexivity].
  destruct (dict_get (ckpt_target_transform ckpt) "PQ"); cbn [bind]; reflexivity.
Qed.

Lemma dict_get_raises_KeyError {V : Type} (d : dict V) (k : string) (e : py_error) :
  dict_get d k = Raise e -> e = KeyError.
Proof.
  induction d as [|[k' v] d IH]; simpl; [intros H; inversion H; reflexivity|].
  destruct (String.eqb k' k); [discriminate | exact IH].
Qed.

(** Construction succeeds exactly when the checkpoint has a transform for
    each of the four axes, and fails with [KeyError] otherwise.  The
    predictor then has the sample rate 16000 whatever the arguments, and
    its transforms are those of the checkpoint for CE, CU, PC, PQ, in that
    order; other entries of the checkpoint are ignored. *)
Theorem init_target_transform (ckpt : checkpoint) (pth prec : string) (bs : Z)
  (dev : string) :
  ((forall axis, In axis AXES_NAME ->
      exists ms, dict_get (ckpt_target_transform ckpt) axis = Ok ms) ->
   exists self, snd (init ckpt pth prec bs dev) = Ok self) /\
  ((exists axis, In axis AXES_NAME /\
      dict_get (ckpt_target_transform ckpt) axis = Raise KeyError) ->
   snd (init ckpt pth prec bs dev) = Raise KeyError) /\
  (forall self, snd (init ckpt pth prec bs dev) = Ok self ->
     sample_rate self = 16000 /\
     batch_size self = bs /\ device self = dev /\ checkpoint_pth self = pth /\
     dict_keys (target_transform self) = AXES_NAME /\
     forall axis, In axis AXES_NAME ->
       exists m s,
         dict_get (ckpt_target_transform ckpt) axis = Ok (m, s) /\
         dict_get (target_transform self) axis = Ok (mk_Normalize m s)).
Proof.
  assert (Hsnd : snd (init ckpt pth prec bs dev) =
                 (tr <- build_target_transform ckpt ;;
                  Ok (mk_predictor pth prec bs 16000 dev
                        (dict_get_none precision_table prec) (ckpt_model ckpt) tr)))
    by reflexivity.
  rewrite Hsnd, build_target_transform_spec. unfold AXES_NAME.
  split; [|split].
  - intros H.
    destruct (H "CE") as (ce & ->); [simpl; auto|].
    destruct (H "CU") as (cu & ->); [simpl; auto|].
    destruct (H "PC") as (pc & ->); [simpl; auto|].
    destruct (H "PQ") as (pq & ->); [simpl; auto 6|].
    cbn [bind]. eexists; reflexivity.
  - intros (axis & Hin & Hraise).
    destruct (dict_get (ckpt_target_transform ckpt) "CE") as [ce|e1] eqn:E1; cbn [bind].
    2:{ now rewrite (dict_get_raises_KeyError _ _ _ E1). }
    destruct (dict_get (ckpt_target_transform ckpt) "CU") as [cu|e2] eqn:E2; cbn [bind].
    2:{ now rewrite (dict_get_raises_KeyError _ _ _ E2). }
    destruct (dict_get (ckpt_target_transform ckpt) "PC") as [pc|e3] eqn:E3; cbn [bind].
    2:{ now rewrite (dict_get_raises_KeyError _ _ _ E3). }
    destruct (dict_get (ckpt_target_transform ckpt) "PQ") as [pq|e4] eqn:E4; cbn [bind].
    2:{ now rewrite (dict_get_raises_KeyError _ _ _ E4). }
    simpl in Hin. destruct Hin as [<-|[<-|[<-|[<-|[]]]]]; congruence.
  - intros self.
    destruct (dict_get (ckpt_target_transform ckpt) "CE") as [[m1 s1]|] eqn:E1;
      cbn [bind]; [|discriminate].
    destruct (dict_get (ckpt_target_transform ckpt) "CU") as [[m2 s2]|] eqn:E2;
      cbn [bind]; [|discriminate].
    destruct (dict_get (ckpt_target_transform ckpt) "PC") as [[m3 s3]|] eqn:E3;
      cbn [bind]; [|discriminate].
    destruct (dict_get (ckpt_target_transform ckpt) "PQ") as [[m4 s4]|] eqn:E4;
      cbn [bind]; [|discriminate].
    intros H; inversion H; subst self; clear H.
    cbn [sample_rate batch_size device checkpoint_pth target_transform dict_keys
         map fst snd].
    repeat split.
    intros axis [<-|[<-|[<-|[<-|[]]]]]; do 2 eexists;
      (split; [eassumption | reflexivity]).
Qed.

Lemma init_target_transform_witness :
  exists self, snd (init demo_ckpt "ckpt.pt" "bf16" 1 "cpu") = Ok self.
Proof.
  apply (proj1 (init_target_transform demo_ckpt "ckpt.pt" "bf16" 1 "cpu")).
  intros axis [<-|[<-|[<-|[<-|[]]]]]; eexists; reflexivity.
Defined.

Local Close Scope string_scope.

(** * Loops that raise *)

Lemma for_each_raises {S X : Type} (body : S -> X -> result S) (xs : list X)
  (bad : X) (s : S) :
  In bad xs ->
  (forall s, exists e, body s bad = Raise e) ->
  exists e, for_each body xs s = Raise e.
Proof.
  intros Hin Hbad; revert s; induction xs as [|x xs IH]; intros s; [contradiction|].
  simpl. destruct (body s x) as [s'|e] eqn:E; cbn [bind]; [|eauto].
  destruct Hin as [->|Hin]; [|now apply IH].
  destruct (Hbad s) as (e & He); congruence.
Qed.

(** * [load_dataset] *)

Section LoadDatasetProperties.

Variable json_value : Type.
Variable json_loads : string -> result json_value.

Lemma load_dataset_from (f : string -> json_value) (start end_ : Z)
  (l : list string) (s0 : nat) (acc : list json_value) :
  (forall i line, start <= Z.of_nat (s0 + i) < end_ ->
     nth_error l i = Some line -> json_loads line = Ok (f line)) ->
  for_each (load_dataset_body json_value json_loads start end_)
    (combine (seq s0 (length l)) l) acc
  = Ok (acc ++ map f (firstn (Z.to_nat (end_ - Z.max start (Z.of_nat s0)))
                        (skipn (Z.to_nat (start - Z.of_nat s0)) l))).
Proof.
  revert s0 acc; induction l as [|x l IH]; intros s0 acc H.
  - simpl. now rewrite skipn_nil, firstn_nil, app_nil_r.
  - cbn [length seq combine for_each]. unfold load_dataset_body at 1.
    destruct ((start <=? Z.of_nat s0) && (Z.of_nat s0 <? end_)) eqn:E.
    + apply andb_true_iff in E as [E1 E2].
      apply Z.leb_le in E1; apply Z.ltb_lt in E2.
      rewrite (H 0%nat x) by (first [rewrite Nat.add_0_r; lia | reflexivity]).
      cbn [bind]. rewrite IH.
      2:{ intros i line Hi Hn. apply (H (S i)); [|exact Hn].
          replace (s0 + S i)%nat with (S s0 + i)%nat by lia. exact Hi. }
      replace (Z.to_nat (start - Z.of_nat s0)) with 0%nat by lia.
      replace (Z.to_nat (start - Z.of_nat (S s0))) with 0%nat by lia.
      replace (Z.to_nat (end_ - Z.max start (Z.of_nat s0)))
        with (S (Z.to_nat (end_ - Z.max start (Z.of_nat (S s0))))) by lia.
      cbn [skipn firstn map]. now rewrite <- app_assoc.
    + cbn [bind]. rewrite IH.
      2:{ intros i line Hi Hn. apply (H (S i)); [|exact Hn].
          replace (s0 + S i)%nat with (S s0 + i)%nat by lia. exact Hi. }
      f_equal. f_equal.
      apply andb_false_iff in E as [E|E].
      * apply Z.leb_gt in E.
        replace (Z.to_nat (start - Z.of_nat s0))
          with (S (Z.to_nat (start - Z.of_nat (S s0)))) by lia.
        replace (Z.max start (Z.of_nat (S s0))) with (Z.max start (Z.of_nat s0)) by lia.
        reflexivity.
      * apply Z.ltb_ge in E.
        replace (Z.to_nat (end_ - Z.max start (Z.of_nat s0))) with 0%nat by lia.
        replace (Z.to_nat (end_ - Z.max start (Z.of_nat (S s0)))) with 0%nat by lia.
        reflexivity.
Qed.

(** [load_dataset] parses exactly the lines whose number [ii] satisfies
    [start <= ii < end], in order; the other lines are skipped unparsed,
    so a malformed line outside of the window does no harm.  A negative
    [start] does not count from the end of the file: it selects from the
    first line. *)
Theorem load_dataset_window (f : string -> json_value) (lines : list string)
  (start end_ : Z) :
  (forall ii line, start <= Z.of_nat ii < end_ ->
     nth_error lines ii = Some line -> json_loads line = Ok (f line)) ->
  load_dataset json_value json_loads lines start end_
  = Ok (map f (firstn (Z.to_nat (end_ - Z.max start 0))
                 (skipn (Z.to_nat start) lines))).
Proof.
  intros H; unfold load_dataset, enumerate.
  rewrite (load_dataset_from f) by exact H.
  cbn [app Z.of_nat]. now rewrite Z.sub_0_r.
Qed.

(** With the bounds [main_predict] passes, 0 and [2**64], every line of
    a file of fewer than [2**64] lines is parsed. *)
Lemma load_dataset_all (f : string -> json_value) (lines : list string) :
  Z.of_nat (length lines) <= 2 ^ 64 ->
  (forall line, In line lines -> json_loads line = Ok (f line)) ->
  load_dataset json_value json_loads lines 0 (2 ^ 64) = Ok (map f lines).
Proof.
  intros Hlen H. rewrite (load_dataset_window f).
  - rewrite firstn_all2; [reflexivity|]. rewrite length_skipn. lia.
  - intros ii line _ Hn. apply H. eapply nth_error_In; eassumption.
Qed.

(** A line inside the window that [json.loads] rejects makes
    [load_dataset] raise; nothing is returned for the lines before it. *)
Theorem load_dataset_malformed (lines : list string) (start end_ : Z)
  (ii : nat) (line : string) (e : py_error) :
  start <= Z.of_nat ii < end_ ->
  nth_error lines ii = Some line ->
  json_loads line = Raise e ->
  exists e', load_dataset json_value json_loads lines start end_ = Raise e'.
Proof.
  intros Hwin Hn Hraise; unfold load_dataset.
  apply (for_each_raises _ _ (ii, line)).
  - now apply enumerate_In.
  - intros s; exists e. unfold load_dataset_body.
    destruct (Z.leb_spec start (Z.of_nat ii)); [|lia].
    destruct (Z.ltb_spec (Z.of_nat ii) end_); [|lia].
    cbn [andb]. now rewrite Hraise.
Qed.

End LoadDatasetProperties.

Lemma load_dataset_window_witness :
  load_dataset nat
    (fun line => if String.eqb line "bad" then Raise ValueError
                 else Ok (String.length line))
    ["bad"; "a"; "bc"; "bad"]%string 1 3
  = Ok (map String.length
          (firstn (Z.to_nat (3 - Z.max 1 0))
             (skipn (Z.to_nat 1) ["bad"; "a"; "bc"; "bad"]%string))).
Proof.
  apply (load_dataset_window nat
           (fun line => if String.eqb line "bad" then Raise ValueError
                        else Ok (String.length line))
           String.length ["bad"; "a"; "bc"; "bad"]%string 1 3).
  intros [|[|[|[|ii]]]] line Hwin Hn; simpl in Hn; try lia;
    inversion Hn; subst; reflexivity.
Defined.

Lemma load_dataset_malformed_witness :
  exists e',
    load_dataset nat
      (fun line => if String.eqb line "bad" then Raise ValueError
                   else Ok (String.length line))
      ["a"; "bad"; "bc"]%string 0 (2 ^ 64) = Raise e'.
Proof.
  apply (load_dataset_malformed nat
           (fun line => if String.eqb line "bad" then Raise ValueError
                        else Ok (String.length line))
           ["a"; "bad"; "bc"]%string 0 (2 ^ 64) 1 "bad"%string ValueError).
  - simpl; lia.
  - reflexivity.
  - reflexivity.
Defined.

(** * [read_wav] *)

Section ReadWavProperties.

Variable torchaudio_info_sample_rate : string -> Z.
Variable torchaudio_load : string -> option (Z * Z) -> list (list Q) * Z.

(** A metadata record without [path] raises [KeyError], and so does one
    that has a [start_time] but no [end_time]; without [start_time] the
    [end_time] is never read. *)
Theorem read_wav_missing_key (meta : wav_meta) :
  (meta_path meta = None ->
   read_wav torchaudio_info_sample_rate torchaudio_load meta = Raise KeyError) /\
  (meta_start_time meta <> None -> meta_end_time meta = None ->
   read_wav torchaudio_info_sample_rate torchaudio_load meta = Raise KeyError) /\
  (meta_path meta <> None -> meta_start_time meta = None ->
   exists r, read_wav torchaudio_info_sample_rate torchaudio_load meta = Ok r).
Proof.
  unfold read_wav; destruct meta as [[path|] [start|] [end_|]]; cbn;
    repeat split; intros; try congruence; try reflexivity; eexists; reflexivity.
Qed.

(** Whatever the file holds, [read_wav] returns at most one channel, and
    when the file has several channels of [T] samples it returns one
    channel of [T] samples. *)
Theorem read_wav_mono (meta : wav_meta) (wav : list (list Q)) (sr : Z) :
  read_wav torchaudio_info_sample_rate torchaudio_load meta = Ok (wav, sr) ->
  (length wav <= 1)%nat /\
  exists path window,
    meta_path meta = Some path /\
    (meta_start_time meta = None -> window = None) /\
    (forall start, meta_start_time meta = Some start ->
       exists end_, meta_end_time meta = Some end_ /\
         sr = torchaudio_info_sample_rate path /\
         window = Some (start * sr, (end_ - start) * sr)) /\
    let loaded := fst (torchaudio_load path window) in
    ((1 < length loaded)%nat ->
     exists mixed, wav = [mixed] /\ length mixed = length (hd [] loaded)) /\
    ((length loaded <= 1)%nat -> wav = loaded).
Proof.
  unfold read_wav. destruct meta as [[path|] start end_]; cbn [meta_get meta_path bind];
    [|discriminate].
  cbn [meta_start_time meta_end_time].
  assert (Hmix : forall loaded sr0,
            Ok ((if (1 <? length loaded)%nat then tensor_mean0 loaded else loaded), sr0)
            = Ok (wav, sr) ->
            sr0 = sr /\ (length wav <= 1)%nat /\
            ((1 < length loaded)%nat ->
             exists mixed, wav = [mixed] /\ length mixed = length (hd [] loaded)) /\
            ((length loaded <= 1)%nat -> wav = loaded)).
  { intros loaded sr0 H. injection H as H1 H2.
    destruct (Nat.ltb_spec 1 (length loaded)) as [Hc|Hc]; subst wav.
    - split; [assumption|]. split; [simpl; lia|]. split; [|lia].
      intros _. eexists; split; [reflexivity|].
      now rewrite length_map, length_seq.
    - split; [assumption|]. split; [lia|]. split; [lia | reflexivity]. }
  destruct start as [start|].
  - destruct end_ as [end_|]; cbn [meta_get bind fst snd]; [|discriminate].
    intros H. apply Hmix in H as (Hsr & Hle & H2 & H1).
    split; [exact Hle|].
    exists path, (Some (start * sr, (end_ - start) * sr)).
    split; [reflexivity|]. split; [discriminate|]. split.
    + intros s0 Hs0; inversion Hs0; subst s0.
      exists end_. repeat split; congruence.
    + rewrite <- Hsr. cbv zeta. split; assumption.
  - cbn [bind]. intros H. apply Hmix in H as (Hsr & Hle & H2 & H1).
    split; [exact Hle|].
    exists path, None. split; [reflexivity|]. split; [reflexivity|].
    split; [discriminate|]. cbv zeta. split; assumption.
Qed.

End ReadWavProperties.

Lemma read_wav_missing_key_witness :
  read_wav (fun _ => 16000) (fun _ _ => ([[1; 2]; [2; 2]]%Q, 16000))
    (mk_meta (Some "a.wav"%string) (Some 1) None) = Raise KeyError.
Proof.
  apply (proj1 (proj2 (read_wav_missing_key (fun _ => 16000)
                         (fun _ _ => ([[1; 2]; [2; 2]]%Q, 16000))
                         (mk_meta (Some "a.wav"%string) (Some 1) None))));
    [discriminate | reflexivity].
Defined.

Lemma read_wav_mono_witness :
  (length [[3 # 2; 2]%Q] <= 1)%nat.
Proof.
  apply (read_wav_mono (fun _ => 16000)
           (fun _ _ => ([[1; 2]; [2; 2]]%Q, 16000))
           (mk_meta (Some "a.wav"%string) None None)
           [[(1 + (2 + 0)) / inject_Z 2; (2 + (2 + 0)) / inject_Z 2]%Q] 16000).
  reflexivity.
Defined.

(** * The keys of the state dict *)

Lemma dict_set_fresh {V : Type} (d : dict V) (k : string) (v : V) :
  ~ In k (map fst d) -> dict_set d k v = d ++ [(k, v)].
Proof.
  induction d as [|[k' v'] d IH]; intros H; simpl; [reflexivity|].
  destruct (String.eqb_spec k' k) as [->|Hne].
  - exfalso; apply H; now left.
  - rewrite IH; [reflexivity|]. intros Hin; apply H; now right.
Qed.

Lemma dict_of_pairs_from {V : Type} (l acc : dict V) :
  NoDup (map fst (acc ++ l)) ->
  fold_left (fun d kv => dict_set d (fst kv) (snd kv)) l acc = acc ++ l.
Proof.
  revert acc; induction l as [|[k v] l IH]; intros acc H; simpl.
  - now rewrite app_nil_r.
  - rewrite dict_set_fresh.
    + rewrite IH; rewrite <- app_assoc; [reflexivity | exact H].
    + rewrite map_app in H. simpl in H. apply NoDup_remove_2 in H.
      intros Hin; apply H. apply in_or_app; now left.
Qed.

(** When no two keys of the checkpoint collide after the removal of the
    prefix, the rewritten state dict has the entries of the original one,
    in the same order, under the shortened keys.  When two keys collide,
    one entry is left, with the value that came last. *)
Theorem rewrite_state_dict_spec {V : Type} :
  (forall items : dict V,
      NoDup (map (fun kv => re_sub_model_prefix (fst kv)) items) ->
      rewrite_state_dict items
      = map (fun kv => (re_sub_model_prefix (fst kv), snd kv)) items) /\
  (forall (k1 k2 : string) (v1 v2 : V),
      re_sub_model_prefix k1 = re_sub_model_prefix k2 ->
      rewrite_state_dict [(k1, v1); (k2, v2)] = [(re_sub_model_prefix k1, v2)]).
Proof.
  split.
  - intros items H; unfold rewrite_state_dict, dict_of_pairs.
    rewrite dict_of_pairs_from; [reflexivity|].
    simpl. now rewrite map_map.
  - intros k1 k2 v1 v2 H; unfold rewrite_state_dict, dict_of_pairs; simpl.
    rewrite H, String.eqb_refl. reflexivity.
Qed.

Lemma rewrite_state_dict_spec_witness :
  rewrite_state_dict [("model.w", 1); ("model.b", 2); ("step", 3)]%string
  = map (fun kv => (re_sub_model_prefix (fst kv), snd kv))
        [("model.w", 1); ("model.b", 2); ("step", 3)]%string /\
  rewrite_state_dict [("model.w", 1); ("model_w", 2)]%string
  = [(re_sub_model_prefix "model.w", 2)].
Proof.
  split.
  - apply (proj1 (@rewrite_state_dict_spec Z)).
    simpl. repeat constructor; simpl; intuition discriminate.
  - apply (proj2 (@rewrite_state_dict_spec Z)). reflexivity.
Defined.

(** * Content of the windows *)

(** The [k]-th window of clip [bii] starts at sample [k * hop]: it holds
    the slice [wav[k*hop : k*hop + winlen]], followed, when zero-padding is
    on, by the zeros that fill it up to [winlen]; its weight is the length
    of the slice over [winlen]. *)
Theorem clip_window_content (input_wavs : list (list Q))
  (hop_size window_size sample_rate : Z) (pad_zero : bool) (b : batch_lists)
  (bii k : nat) (wav : list Q) (w : window) :
  0 < hop_size * sample_rate ->
  0 < window_size * sample_rate ->
  make_inference_batch input_wavs hop_size window_size sample_rate pad_zero = Ok b ->
  nth_error input_wavs bii = Some wav ->
  nth_error (filter (fun w => Nat.eqb (w_bid w) bii) (batch_windows b)) k = Some w ->
  let ii := Z.of_nat k * (hop_size * sample_rate) in
  let real := py_slice wav ii (ii + window_size * sample_rate) in
  0 <= ii < Z.of_nat (length wav) /\
  w_samples w =
    real ++ (if pad_zero
             then repeat 0%Q (Z.to_nat (window_size * sample_rate
                                        - Z.of_nat (length real)))
             else []) /\
  (w_weight w == inject_Z (Z.of_nat (length real))
                 / inject_Z (window_size * sample_rate))%Q.
Proof.
  intros Ho Hw Hb Hn Hk.
  assert (Hw0 : window_size * sample_rate <> 0) by lia.
  pose proof (make_inference_batch_inv _ _ _ _ _ _ Hw0 Hb) as Hv.
  set (offset := hop_size * sample_rate) in *.
  set (winlen := window_size * sample_rate) in *.
  rewrite Hv, batch_windows_of in Hk. unfold all_windows, enumerate in Hk.
  pose proof (windows_of_clip offset winlen pad_zero input_wavs 0 bii wav Hn) as Hc.
  simpl in Hc; rewrite Hc in Hk; clear Hc.
  unfold clip_windows in Hk; cbn [fst snd] in Hk.
  rewrite nth_error_map in Hk.
  destruct (nth_error (range_list 0 (Z.of_nat (length wav)) offset) k) as [ii|] eqn:Hii;
    [|discriminate].
  cbn [option_map] in Hk. injection Hk as <-.
  assert (Hin : In ii (range_list 0 (Z.of_nat (length wav)) offset))
    by (eapply nth_error_In; eassumption).
  apply range_list_In in Hin as (k' & _ & Hr & _); [|lia].
  assert (Hiik : ii = Z.of_nat k * offset).
  { unfold range_list in Hii. rewrite nth_error_map, nth_error_seq in Hii.
    destruct (k <? Z.to_nat (range_len 0 (Z.of_nat (length wav)) offset))%nat;
      [|discriminate].
    cbn [option_map Nat.add] in Hii. injection Hii as <-. lia. }
  subst ii. cbv zeta.
  split; [exact Hr|].
  rewrite window_at_closed by assumption.
  rewrite py_slice_window by assumption.
  rewrite window_real_length by assumption.
  unfold make_window; destruct pad_zero; cbn [w_samples w_weight].
  - split; reflexivity.
  - split; [now rewrite app_nil_r | reflexivity].
Qed.

Lemma clip_window_content_witness :
  0 <= Z.of_nat 1 * (2 * 1) < Z.of_nat (length [7; 8; 9]%Q) /\
  [9; 0]%Q =
    py_slice [7; 8; 9]%Q (Z.of_nat 1 * (2 * 1)) (Z.of_nat 1 * (2 * 1) + 2 * 1)
    ++ (if true
        then repeat 0%Q
               (Z.to_nat (2 * 1 - Z.of_nat
                  (length (py_slice [7; 8; 9]%Q (Z.of_nat 1 * (2 * 1))
                             (Z.of_nat 1 * (2 * 1) + 2 * 1)))))
        else []) /\
  (1 # 2 == inject_Z (Z.of_nat
              (length (py_slice [7; 8; 9]%Q (Z.of_nat 1 * (2 * 1))
                         (Z.of_nat 1 * (2 * 1) + 2 * 1))))
            / inject_Z (2 * 1))%Q.
Proof.
  apply (clip_window_content [[7; 8; 9]%Q] 2 2 1 true
           (mk_batch [[7; 8]; [9; 0]]%Q [[true; true]; [true; false]]
              [2 # 2; 1 # 2] [0; 0]%nat)
           0 1 [7; 8; 9]%Q (mk_window [9; 0]%Q [true; false] (1 # 2) 0)).
  - lia.
  - lia.
  - reflexivity.
  - reflexivity.
  - reflexivity.
Defined.
